(** * Shift automation: the Apps Script report engine of [Code.gs]

  A shallow embedding of the report pipeline of [Code.gs]
  ([processSelectedDates], [prepareRawData], [processDailyData],
  [generateMasterReport], [getDateRange], [formatTime],
  [getMasterData]) and the properties the specification states about
  it.

  Conventions of the embedding:
  - a JavaScript [Date] is its time value, a [Z] of milliseconds since
    the epoch; every date that reaches the engine is a valid one (the
    date picker delivers [YYYY-MM-DD] strings, the planned start date
    column of a city sheet holds dates);
  - [current.setDate(current.getDate() + 1)] advances the time value by
    [msPerDay]: the script's own time zone has a fixed offset;
  - counters ([total], [assigned]) are JavaScript numbers that only
    ever hold integers: they are [Z], so that [total - assigned] is
    the subtraction of the source and not a truncated one;
  - a [Map] is a list of key/value pairs in insertion order, a [Set]
    of strings is a [gset string];
  - the functions of the JavaScript runtime that parse a string into a
    date and print a date as a string are parameters of the
    development (section [Platform]). *)

From Stdlib Require Import ZArith List String Ascii Lia Bool.
From stdpp Require Import base decidable option list gmap strings pretty.
From Equations Require Import Equations.
Import ListNotations.

Local Open Scope string_scope.
Local Open Scope list_scope.
Local Open Scope Z_scope.

(** ** JavaScript values and strings *)

Module Js.

(** A value read from a spreadsheet cell by [getValues()]: text (the
    empty cell is the empty text), a number (integer valued here), a
    boolean, or a date. *)
Inductive Cell : Type :=
| CText (s : string)
| CNum (n : Z)
| CBool (b : bool)
| CDate (t : Z).

(** [ToBoolean]: what [if (x)] and [!x] test. *)
Definition truthy (c : Cell) : bool :=
  match c with
  | CText s => negb (String.eqb s "")
  | CNum n => negb (n =? 0)
  | CBool b => b
  | CDate _ => true
  end.

(** White space removed by [String.prototype.trim], on ASCII. *)
Definition is_ws (c : ascii) : bool :=
  match nat_of_ascii c with
  | 9%nat | 10%nat | 11%nat | 12%nat | 13%nat | 32%nat => true
  | _ => false
  end.

Fixpoint trimStart (s : string) : string :=
  match s with
  | EmptyString => EmptyString
  | String c s' => if is_ws c then trimStart s' else s
  end.

Fixpoint trimEnd (s : string) : string :=
  match s with
  | EmptyString => EmptyString
  | String c s' =>
      match trimEnd s' with
      | EmptyString => if is_ws c then EmptyString else String c EmptyString
      | r => String c r
      end
  end.

Definition trim (s : string) : string := trimEnd (trimStart s).

(** Simple case folding of the [i] flag of a regular expression, on
    ASCII letters. *)
Definition toUpper (c : ascii) : ascii :=
  let n := nat_of_ascii c in
  if (97 <=? n)%nat && (n <=? 122)%nat then ascii_of_nat (n - 32) else c.

Fixpoint upper (s : string) : string :=
  match s with
  | EmptyString => EmptyString
  | String c s' => String (toUpper c) (upper s')
  end.

(** [s.includes(pat)]. *)
Fixpoint includes (pat s : string) : bool :=
  String.prefix pat s ||
  match s with
  | EmptyString => false
  | String _ s' => includes pat s'
  end.

Definition startsWith (pat s : string) : bool := String.prefix pat s.

(** Two decimal digits, as the [HH], [mm], [MM] and [dd] fields of a
    date pattern print them. *)
Definition digit (n : Z) : ascii := ascii_of_nat (48 + Z.to_nat n).

Definition pad2 (n : Z) : string :=
  String (digit (n / 10 mod 10)) (String (digit (n mod 10)) EmptyString).

Definition pad4 (n : Z) : string :=
  pad2 (n / 100) +:+ pad2 n.

End Js.

(** ** [Utilities.formatDate] at the patterns the engine uses *)

Module Utilities.

Definition msPerMinute : Z := 60000.
Definition msPerHour : Z := 3600000.
Definition msPerDay : Z := 86400000.

(** A time zone is its offset from UTC in milliseconds. *)
Definition zoneOffset (hours : Z) : Z := hours * msPerHour.

(** Day number since 1970-01-01 of the instant [t] seen in zone
    [tz]. *)
Definition localDay (tz t : Z) : Z := (t + tz) / msPerDay.

Definition localMillis (tz t : Z) : Z := (t + tz) mod msPerDay.

(** Civil date of a day number in the proleptic Gregorian calendar:
    (year, month, day). *)
Definition civil (days : Z) : Z * Z * Z :=
  let z := days + 719468 in
  let era := z / 146097 in
  let doe := z - era * 146097 in
  let yoe := (doe - doe / 1460 + doe / 36524 - doe / 146096) / 365 in
  let y := yoe + era * 400 in
  let doy := doe - (365 * yoe + yoe / 4 - yoe / 100) in
  let mp := (5 * doy + 2) / 153 in
  let d := doy - (153 * mp + 2) / 5 + 1 in
  let m := if mp <? 10 then mp + 3 else mp - 9 in
  (if m <=? 2 then y + 1 else y, m, d).

(** Pattern ["yyyy-MM-dd"] (years 0 to 9999 print as four digits). *)
Definition formatDate_yyyyMMdd (tz t : Z) : string :=
  let '(y, m, d) := civil (localDay tz t) in
  Js.pad4 y +:+ "-" +:+ Js.pad2 m +:+ "-" +:+ Js.pad2 d.

(** Pattern ["HH:mm"]. *)
Definition formatDate_HHmm (tz t : Z) : string :=
  let ms := localMillis tz t in
  Js.pad2 (ms / msPerHour) +:+ ":" +:+ Js.pad2 (ms mod msPerHour / msPerMinute).

End Utilities.

(** ** Settings *)

Definition CONTRACTS : list string :=
  [ "Al Abtal"; "Al Alamia"; "bad El rahman"; "El Tohami";
    "MTA"; "Stop Car"; "Tanta Car"; "Tantawy";
    "Team mh for Delivery"; "Wasaly"; "Zero Zero Seven" ].

Definition CITIES : list string :=
  [ "Assiut"; "Hurghada"; "Ismalia"; "Minya"; "Port said"; "Suez" ].

(** [TIME_ZONE = "GMT+2"]. *)
Definition TIME_ZONE : Z := Utilities.zoneOffset 2.

(** ** Data *)

(** The columns of a city sheet row that the engine reads:
    [1] employee id, [5] shift status, [7] planned start date,
    [9] planned start time, [10] planned end time. Any of them may hold
    any cell value. *)
Record RawRow : Type := mkRawRow {
  col1 : Js.Cell;
  col5 : Js.Cell;
  col7 : Js.Cell;
  col9 : Js.Cell;
  col10 : Js.Cell
}.

(** A row of the [All] sheet: id, name, contract, city. *)
Record AllRow : Type := mkAllRow {
  all0 : Js.Cell;
  all1 : Js.Cell;
  all2 : Js.Cell;
  all3 : Js.Cell
}.

(** The object [prepareRawData] pushes for a retained row. Its planned
    start date is of type [D]: the cell value as it is read, a
    [Js.Cell], in the records [prepareRawData] returns; the time value
    of [new Date(row.plannedStartDate)], a [Z], in the records whose
    date is a valid one. *)
Module Row.
Record t (D : Type) : Type := mk {
  employeeId : string;
  shiftStatus : string;
  plannedStartDate : D;
  plannedStartTime : string;
  plannedEndTime : string;
  city : string
}.
Arguments mk {D}.
Arguments employeeId {D}.
Arguments shiftStatus {D}.
Arguments plannedStartDate {D}.
Arguments plannedStartTime {D}.
Arguments plannedEndTime {D}.
Arguments city {D}.

(** Property access [row.<name>] as a template literal prints it: a
    property the object does not have reads [undefined]. The date is
    never interpolated by the engine and is left out. *)
Definition template {D : Type} (name : string) (row : t D) : string :=
  if String.eqb name "employeeId" then employeeId row
  else if String.eqb name "shiftStatus" then shiftStatus row
  else if String.eqb name "plannedStartTime" then plannedStartTime row
  else if String.eqb name "plannedEndTime" then plannedEndTime row
  else if String.eqb name "city" then city row
  else "undefined".
End Row.

(** The object [getMasterData] builds for a roster row. *)
Module Emp.
Record t : Type := mk {
  id : string;
  name : string;
  contract : string;
  city : string
}.
End Emp.

(** The spreadsheet as the engine reads it: the data rows (row 2 to the
    last row) of each city sheet and of the [All] sheet, when the sheet
    exists, and the names of all sheets. *)
Record Spreadsheet : Type := mkSpreadsheet {
  citySheets : gmap string (list RawRow);
  allSheet : option (list AllRow);
  sheetNames : list string
}.

(** ** A [Map] in insertion order *)

Module JsMap.
Section WithValue.
Context {V : Type}.

Fixpoint get (key : string) (m : list (string * V)) : option V :=
  match m with
  | [] => None
  | (k, v) :: m' => if String.eqb k key then Some v else get key m'
  end.

Definition has (key : string) (m : list (string * V)) : bool :=
  match get key m with Some _ => true | None => false end.

(** [m.set(key, v)]: a present key keeps its place, a new one goes
    last. *)
Fixpoint set (key : string) (v : V) (m : list (string * V)) : list (string * V) :=
  match m with
  | [] => [(key, v)]
  | (k, w) :: m' =>
      if String.eqb k key then (k, v) :: m' else (k, w) :: set key v m'
  end.

(** Mutation of the object [m.get(key)] returns, for a present key. *)
Fixpoint update (key : string) (f : V -> V) (m : list (string * V)) : list (string * V) :=
  match m with
  | [] => []
  | (k, w) :: m' =>
      if String.eqb k key then (k, f w) :: m' else (k, w) :: update key f m'
  end.

Definition keys (m : list (string * V)) : list string := map fst m.

End WithValue.
End JsMap.

(** [arr.forEach(x => body)] over a state [s] the body mutates. *)
Definition forEach {A S : Type} (arr : list A) (body : S -> A -> S) (s : S) : S :=
  fold_left body arr s.

(** ** Data preparation *)

Section Platform.

(** [new Date(s)] for a string [s]: the time value, or [None] for an
    invalid date. *)
Variable Date_parse : string -> option Z.

(** [String(d)] for a date [d]. *)
Variable Date_toString : Z -> string.

(** [String(x)] for a cell value. *)
Definition String_ (c : Js.Cell) : string :=
  match c with
  | Js.CText s => s
  | Js.CNum n => pretty n
  | Js.CBool true => "true"
  | Js.CBool false => "false"
  | Js.CDate t => Date_toString t
  end.

(** [new Date(x)] for a cell value: the time value, [None] for an
    invalid date (a time value beyond 8.64e15 ms is invalid). *)
Definition newDate (c : Js.Cell) : option Z :=
  match c with
  | Js.CText s => Date_parse s
  | Js.CNum n => if Z.abs n <=? 8640000000000000 then Some n else None
  | Js.CBool b => Some (if b then 1 else 0)
  | Js.CDate t => Some t
  end.

(** [/(NO_SHOW|EXCUSED)/i.test(s)]. *)
Definition excludedStatus (s : string) : bool :=
  Js.includes "NO_SHOW" (Js.upper s) || Js.includes "EXCUSED" (Js.upper s).

Definition isValidShift (status : Js.Cell) : bool :=
  if negb (Js.truthy status) then false
  else negb (excludedStatus (Js.trim (String_ status))).

(** [Utilities.formatDate] raises on an invalid date; [formatTime]
    catches it. *)
Definition formatTime (time : Js.Cell) : string :=
  if negb (Js.truthy time) then "Invalid Time"
  else match newDate time with
       | Some t => Utilities.formatDate_HHmm TIME_ZONE t
       | None => "Invalid Time"
       end.

(** The body of [data.forEach(row => ...)] in [prepareRawData], for
    the rows [data] of the sheet of [city]. *)
Definition prepareRawData_row (city : string) (allData : list (Row.t Js.Cell))
    (row : RawRow) : list (Row.t Js.Cell) :=
  if Js.truthy (col1 row) && isValidShift (col5 row) then
    allData ++ [ Row.mk (Js.trim (String_ (col1 row)))
                        (Js.trim (String_ (col5 row)))
                        (col7 row)
                        (formatTime (col9 row))
                        (formatTime (col10 row))
                        city ]
  else allData.

Definition prepareRawData_city (city : string) (data : list RawRow)
    (allData : list (Row.t Js.Cell)) : list (Row.t Js.Cell) :=
  forEach data (prepareRawData_row city) allData.

(** A sheet whose last row is before row 2 has no data row. *)
Definition prepareRawData (ss : Spreadsheet) : list (Row.t Js.Cell) :=
  forEach CITIES
    (fun allData city =>
       match citySheets ss !! city with
       | None => allData
       | Some [] => allData
       | Some data => prepareRawData_city city data allData
       end)
    [].

Definition getMasterData (ss : Spreadsheet) : list Emp.t :=
  match allSheet ss with
  | None => []
  | Some [] => []
  | Some rows =>
      map (fun row => Emp.mk (Js.trim (String_ (all0 row)))
                             (String_ (all1 row))
                             (String_ (all2 row))
                             (String_ (all3 row)))
          rows
  end.

End Platform.

(** ** Daily processing *)

(** [Utilities.formatDate(new Date(d), TIME_ZONE, "yyyy-MM-dd")]. *)
Definition dateKey (d : Z) : string :=
  Utilities.formatDate_yyyyMMdd TIME_ZONE d.

Record DailyData : Type := mkDailyData {
  assigned : list (Row.t Z);
  unassigned : list Emp.t
}.

Definition assignedIdsOf (assigned : list (Row.t Z)) : gset string :=
  list_to_set (map Row.employeeId assigned).

(** [processDailyData] on records whose planned start dates are valid
    dates, given by their time values. *)
Definition processDailyData (rawData : list (Row.t Z)) (targetDate : Z)
    (masterData : list Emp.t) : DailyData :=
  let targetDateStr := dateKey targetDate in
  let assigned :=
    List.filter (fun row => String.eqb (dateKey (Row.plannedStartDate row)) targetDateStr)
                rawData in
  let assignedIds := assignedIdsOf assigned in
  let unassigned :=
    List.filter (fun emp => negb (bool_decide (Emp.id emp ∈ assignedIds))) masterData in
  mkDailyData assigned unassigned.

(** ** Exceptions, and the two filters on the planned start date *)

(** What a [catch] receives: an [Error] the script throws with
    [throw new Error(message)], or an exception raised by a service of
    the platform. *)
Inductive Thrown : Type :=
| ScriptError (message : string)
| PlatformException (message : string).

(** [error.message]. *)
Definition messageOf (error : Thrown) : string :=
  match error with
  | ScriptError message | PlatformException message => message
  end.

(** [arr.filter(x => test(x))] for a test that may throw: the elements
    are tested in order, a throw ends the filter. A kept element is
    given as the test returns it. *)
Fixpoint filterThrowing {A B : Type} (test : A -> Thrown + option B) (arr : list A)
  : Thrown + list B :=
  match arr with
  | [] => inr []
  | x :: arr' =>
      match test x with
      | inl error => inl error
      | inr kept =>
          match filterThrowing test arr' with
          | inl error => inl error
          | inr rest => inr (match kept with Some y => y :: rest | None => rest end)
          end
      end
  end.

Section DateCells.

Variable Date_parse : string -> option Z.

(** The message of the exception [Utilities.formatDate] raises for an
    invalid date. *)
Variable invalidDateMessage : string.

(** The record with the time value of [new Date(row.plannedStartDate)]
    for its date, when that is a valid date. *)
Definition dated (row : Row.t Js.Cell) : option (Row.t Z) :=
  match newDate Date_parse (Row.plannedStartDate row) with
  | Some t =>
      Some (Row.mk (Row.employeeId row) (Row.shiftStatus row) t
                   (Row.plannedStartTime row) (Row.plannedEndTime row) (Row.city row))
  | None => None
  end.

(** The test of the filters of [processDailyData] and
    [generateMasterReport] on an ingested record:
    [Utilities.formatDate(new Date(row.plannedStartDate), TIME_ZONE,
    "yyyy-MM-dd") === dateStr], which throws when the date is
    invalid. *)
Definition onDate (dateStr : string) (row : Row.t Js.Cell) : Thrown + option (Row.t Z) :=
  match dated row with
  | None => inl (PlatformException invalidDateMessage)
  | Some row' =>
      inr (if String.eqb (dateKey (Row.plannedStartDate row')) dateStr
           then Some row' else None)
  end.

(** [processDailyData] on the records as they are ingested. On records
    whose dates are all valid it is [processDailyData] above (lemma
    [processDailyData_cells_dated]). *)
Definition processDailyData_cells (rawData : list (Row.t Js.Cell)) (targetDate : Z)
    (masterData : list Emp.t) : Thrown + DailyData :=
  let targetDateStr := dateKey targetDate in
  match filterThrowing (onDate targetDateStr) rawData with
  | inl error => inl error
  | inr assigned =>
      let assignedIds := assignedIdsOf assigned in
      let unassigned :=
        List.filter (fun emp => negb (bool_decide (Emp.id emp ∈ assignedIds))) masterData in
      inr (mkDailyData assigned unassigned)
  end.

End DateCells.

(** ** Date range *)

(** The time zone of the script: [nextDate t] is the time value of a
    date of time value [t] after [d.setDate(d.getDate() + 1)], the same
    wall-clock time on the next calendar day of the zone. In a zone of
    fixed offset that is a day later; across a change of offset of an
    hour it is 23 or 25 hours later. All that is asked of a zone is
    that the next date is at least an hour later, which holds as long
    as its offset never moves forward by more than 23 hours at once. *)
Record ScriptZone : Type := mkScriptZone {
  nextDate : Z -> Z;
  nextDate_advances : forall t, t + Utilities.msPerHour <= nextDate t
}.

Equations? getDateRange_loop (zone : ScriptZone) (current end_ : Z) (dates : list Z)
  : list Z by wf (Z.to_nat ((end_ - current) / Utilities.msPerHour + 1)) lt :=
  getDateRange_loop zone current end_ dates with Z_le_dec current end_ => {
    | left _ := getDateRange_loop zone (nextDate zone current) end_ (dates ++ [current]);
    | right _ := dates }.
Proof.
  pose proof (nextDate_advances zone current) as Hnext.
  assert (HH : 0 < Utilities.msPerHour) by reflexivity.
  assert (Hq : 0 <= (end_ - current) / Utilities.msPerHour) by (apply Z.div_pos; lia).
  assert (Hle : (end_ - nextDate zone current) / Utilities.msPerHour
                <= (end_ - current) / Utilities.msPerHour - 1).
  { replace ((end_ - current) / Utilities.msPerHour - 1)
      with ((end_ - current + (-1) * Utilities.msPerHour) / Utilities.msPerHour)
      by (rewrite Z.div_add by lia; lia).
    apply Z.div_le_mono; lia. }
  lia.
Qed.

Definition getDateRange (zone : ScriptZone) (start end_ : Z) : list Z :=
  getDateRange_loop zone start end_ [].

(** ** Master report *)

(** The value [contractMap] holds for a key; [dates] maps a date key to
    the [assigned] counter of the object stored there. *)
Record Entry : Type := mkEntry {
  entry_contract : string;
  entry_city : string;
  total : Z;
  dates : gmap string Z
}.

(** The three values pushed for a date: assigned, unassigned and the
    percentage text. *)
Record SummaryCell : Type := mkSummaryCell {
  cell_assigned : Z;
  cell_unassigned : Z;
  cell_percentage : string
}.

(** A data row written to [Master_Report]:
    [[contract, city, total, (assigned, unassigned, percentage)...]]. *)
Record ReportRow : Type := mkReportRow {
  row_contract : string;
  row_city : string;
  row_total : Z;
  row_cells : list SummaryCell
}.

(** [(num / den * 100).toFixed(2)] for [0 <= num] and [0 < den], in exact
    arithmetic: the quotient is rounded to the nearest hundredth, a tie
    upwards. *)
Definition toFixed2 (num den : Z) : string :=
  let h := (20000 * num + den) / (2 * den) in
  pretty (h / 100) +:+ "." +:+ Js.pad2 (h mod 100).

Definition keyOf (contract city : string) : string :=
  contract +:+ "_" +:+ city.

(** Initialize contract map with all contracts and cities. *)
Definition initContractMap (contracts cities : list string) : list (string * Entry) :=
  forEach contracts
    (fun contractMap contract =>
       forEach cities
         (fun contractMap city =>
            JsMap.set (keyOf contract city) (mkEntry contract city 0 ∅) contractMap)
         contractMap)
    [].

Definition incrTotal (e : Entry) : Entry :=
  mkEntry (entry_contract e) (entry_city e) (total e + 1) (dates e).

(** Count total employees per contract and city. *)
Definition countTotals (masterData : list Emp.t) (contractMap : list (string * Entry))
  : list (string * Entry) :=
  forEach masterData
    (fun contractMap emp =>
       let key := keyOf (Emp.contract emp) (Emp.city emp) in
       if JsMap.has key contractMap then JsMap.update key incrTotal contractMap
       else contractMap)
    contractMap.

Definition incrAssigned (dateStr : string) (data : Entry) : Entry :=
  let ds := dates data in
  let ds := match ds !! dateStr with
            | Some _ => ds
            | None => <[dateStr := 0]> ds
            end in
  mkEntry (entry_contract data) (entry_city data) (total data)
          (alter (fun assigned => assigned + 1) dateStr ds).

(** The key the report computes for a shift row:
    [`${row.contract}_${row.city}`]. *)
Definition rowKey (row : Row.t Z) : string :=
  keyOf (Row.template "contract" row) (Row.template "city" row).

(** Count assigned employees for each date. *)
Definition countAssigned (dateList : list Z) (rawData : list (Row.t Z))
    (contractMap : list (string * Entry)) : list (string * Entry) :=
  forEach dateList
    (fun contractMap date =>
       let dateStr := dateKey date in
       let dateData :=
         List.filter
           (fun row => String.eqb (dateKey (Row.plannedStartDate row)) dateStr)
           rawData in
       forEach dateData
         (fun contractMap row =>
            let key := rowKey row in
            if JsMap.has key contractMap
            then JsMap.update key (incrAssigned dateStr) contractMap
            else contractMap)
         contractMap)
    contractMap.

Definition summaryCell (value : Entry) (date : Z) : SummaryCell :=
  let dateStr := dateKey date in
  let assigned := match dates value !! dateStr with
                  | Some a => if a =? 0 then 0 else a
                  | None => 0
                  end in
  let unassigned := total value - assigned in
  let percentage := if total value >? 0
                    then toFixed2 assigned (total value) +:+ "%"
                    else "0%" in
  mkSummaryCell assigned unassigned percentage.

(** Populate data: only rows with employees. *)
Definition populate (dateList : list Z) (contractMap : list (string * Entry))
  : list ReportRow :=
  forEach contractMap
    (fun rows '(key, value) =>
       if total value >? 0 then
         rows ++ [ mkReportRow (entry_contract value) (entry_city value) (total value)
                               (map (summaryCell value) dateList) ]
       else rows)
    [].

Definition masterReportOver (contracts cities : list string)
    (dateList : list Z) (masterData : list Emp.t) (rawData : list (Row.t Z))
  : list ReportRow :=
  let contractMap := initContractMap contracts cities in
  let contractMap := countTotals masterData contractMap in
  let contractMap := countAssigned dateList rawData contractMap in
  populate dateList contractMap.

(** The data rows [generateMasterReport] writes, for records whose
    planned start dates are valid dates. *)
Definition generateMasterReport (dateList : list Z) (masterData : list Emp.t)
    (rawData : list (Row.t Z)) : list ReportRow :=
  masterReportOver CONTRACTS CITIES dateList masterData rawData.

Section ReportCells.

Variable Date_parse : string -> option Z.
Variable invalidDateMessage : string.

(** Count assigned employees for each date, on the records as they are
    ingested: the filter on the date may throw. *)
Fixpoint countAssigned_cells (dateList : list Z) (rawData : list (Row.t Js.Cell))
    (contractMap : list (string * Entry)) : Thrown + list (string * Entry) :=
  match dateList with
  | [] => inr contractMap
  | date :: dateList' =>
      let dateStr := dateKey date in
      match filterThrowing (onDate Date_parse invalidDateMessage dateStr) rawData with
      | inl error => inl error
      | inr dateData =>
          countAssigned_cells dateList' rawData
            (forEach dateData
               (fun contractMap row =>
                  let key := rowKey row in
                  if JsMap.has key contractMap
                  then JsMap.update key (incrAssigned dateStr) contractMap
                  else contractMap)
               contractMap)
      end
  end.

(** [generateMasterReport] on the records as they are ingested. On
    records whose dates are all valid it is [generateMasterReport]
    above (lemma [generateMasterReport_cells_dated]). *)
Definition generateMasterReport_cells (dateList : list Z) (masterData : list Emp.t)
    (rawData : list (Row.t Js.Cell)) : Thrown + list ReportRow :=
  let contractMap := initContractMap CONTRACTS CITIES in
  let contractMap := countTotals masterData contractMap in
  match countAssigned_cells dateList rawData contractMap with
  | inl error => inl error
  | inr contractMap => inr (populate dateList contractMap)
  end.

End ReportCells.

(** ** The pipeline *)

(** What a run does to the spreadsheet and the user interface. *)
Inductive Event : Type :=
| DeleteSheet (sheetName : string)
| DailySheets (date : Z) (dailyData : DailyData)
| MasterReport (dateList : list Z) (rows : list ReportRow)
| SuccessAlert (dateList : list Z)
| ErrorAlert (message : string).

(** A computation that may throw and appends the effects it performs
    to a log; effects performed before a throw stay. *)
Definition Run (A : Type) : Type := list Event -> (Thrown + A) * list Event.

Definition ret {A : Type} (a : A) : Run A := fun log => (inr a, log).

(** [throw new Error(message)]. *)
Definition throw {A : Type} (message : string) : Run A :=
  fun log => (inl (ScriptError message), log).

(** A call that returns or throws and has no other effect. *)
Definition call {A : Type} (result : Thrown + A) : Run A := fun log => (result, log).

Definition emit (e : Event) : Run unit := fun log => (inr tt, log ++ [e]).

Definition bind {A B : Type} (m : Run A) (k : A -> Run B) : Run B :=
  fun log =>
    match m log with
    | (inl error, log') => (inl error, log')
    | (inr a, log') => k a log'
    end.

Notation "m ;;; k" := (bind m (fun _ => k))
  (at level 100, right associativity).

(** [try { m } catch (error) { handler(error) }]. *)
Definition tryCatch (m : Run unit) (handler : Thrown -> Run unit) : Run unit :=
  fun log =>
    match m log with
    | (inl error, log') => handler error log'
    | (inr tt, log') => (inr tt, log')
    end.

Fixpoint forEachRun {A : Type} (arr : list A) (body : A -> Run unit) : Run unit :=
  match arr with
  | [] => ret tt
  | x :: arr' => body x ;;; forEachRun arr' body
  end.

(** Sheets of an earlier run are deleted; a failed deletion is logged
    and skipped. *)
Definition clearExistingSheets (ss : Spreadsheet) : Run unit :=
  let protectedSheets := CITIES ++ ["All"] in
  let sheetsToDelete :=
    List.filter
      (fun sheetName =>
         negb (bool_decide (sheetName ∈ protectedSheets)) &&
         (Js.startsWith "Shifts_" sheetName ||
          Js.startsWith "Unassigned_" sheetName ||
          String.eqb sheetName "Master_Report"))
      (sheetNames ss) in
  forEachRun sheetsToDelete (fun sheetName => emit (DeleteSheet sheetName)).

Definition createDailySheets (date : Z) (dailyData : DailyData) : Run unit :=
  emit (DailySheets date dailyData).

Definition showSuccessNotification (dateList : list Z) : Run unit :=
  emit (SuccessAlert dateList).

(** [error.message || 'Unknown error']. *)
Definition handleError (error : Thrown) : Run unit :=
  emit (ErrorAlert (if String.eqb (messageOf error) "" then "Unknown error"
                    else messageOf error)).

Section Pipeline.

Variable zone : ScriptZone.
Variable Date_parse : string -> option Z.
Variable Date_toString : Z -> string.
Variable invalidDateMessage : string.

(** The body of the [try] of [processSelectedDates], from the
    validation of the two dates on. *)
Definition processSelectedDates_try (ss : Spreadsheet) (start end_ : Z) : Run unit :=
  (if start >? end_ then throw "Start date must be before end date" else ret tt) ;;;
  clearExistingSheets ss ;;;
  let rawData := prepareRawData Date_parse Date_toString ss in
  (if (length rawData =? 0)%nat
   then throw "No valid shift data found in city sheets" else ret tt) ;;;
  let dateList := getDateRange zone start end_ in
  let masterData := getMasterData Date_toString ss in
  (if (length masterData =? 0)%nat
   then throw "No employee data found in 'All' sheet" else ret tt) ;;;
  forEachRun dateList
    (fun date =>
       bind (call (processDailyData_cells Date_parse invalidDateMessage
                     rawData date masterData))
            (fun dailyData => createDailySheets date dailyData)) ;;;
  bind (call (generateMasterReport_cells Date_parse invalidDateMessage
                dateList masterData rawData))
       (fun rows => emit (MasterReport dateList rows)) ;;;
  showSuccessNotification dateList.

Definition processSelectedDates (ss : Spreadsheet) (start end_ : Z) : Run unit :=
  tryCatch (processSelectedDates_try ss start end_) handleError.

End Pipeline.

(** ** Vocabulary of the properties *)

(** A string starts with a character that [trim] keeps. *)
Definition headKept (s : string) : Prop :=
  match s with
  | EmptyString => True
  | String c _ => Js.is_ws c = false
  end.

(** Neither end of the string is white space: trimming changes
    nothing. *)
Definition trimmed (s : string) : Prop :=
  Js.trimStart s = s /\ Js.trimEnd s = s.

(** The string is free of the separator of a composite key. *)
Fixpoint noSep (s : string) : bool :=
  match s with
  | EmptyString => true
  | String c s' => negb (Ascii.eqb c "_") && noSep s'
  end.

(** The pairs of the fixed enumeration, contract by contract. *)
Definition enumeration : list (string * string) := list_prod CONTRACTS CITIES.

(** Number of roster entries of a contract and city. *)
Definition countMatching (contract city : string) (masterData : list Emp.t) : Z :=
  Z.of_nat (length (List.filter
    (fun emp => String.eqb (Emp.contract emp) contract && String.eqb (Emp.city emp) city)
    masterData)).

(** Number of roster entries whose composite key is [key]. *)
Definition countKey (key : string) (masterData : list Emp.t) : Z :=
  Z.of_nat (length (List.filter
    (fun emp => String.eqb key (keyOf (Emp.contract emp) (Emp.city emp)))
    masterData)).

Definition addTotal (n : Z) (e : Entry) : Entry :=
  mkEntry (entry_contract e) (entry_city e) (total e + n) (dates e).

(** The row written for an entry of the contract map. *)
Definition rowOfEntry (dateList : list Z) (value : Entry) : ReportRow :=
  mkReportRow (entry_contract value) (entry_city value) (total value)
              (map (summaryCell value) dateList).

(** The entry of a pair of the enumeration once the roster is counted:
    no date has an assigned counter. *)
Definition countedEntry (masterData : list Emp.t) (cy : string * string) : Entry :=
  mkEntry cy.1 cy.2 (countMatching cy.1 cy.2 masterData) ∅.

(** The [n] instants one day apart that start at [start]. *)
Definition daysFrom (start : Z) (n : nat) : list Z :=
  map (fun k => start + Z.of_nat k * Utilities.msPerDay) (seq 0 n).

(** An effect that writes report rows: the two sheets of a day or the
    master report. *)
Definition isReportEvent (e : Event) : bool :=
  match e with
  | DailySheets _ _ | MasterReport _ _ => true
  | _ => false
  end.

(** What [clearExistingSheets] does to a fresh log. *)
Definition deletions (ss : Spreadsheet) : list Event :=
  (clearExistingSheets ss []).2.

Definition startAfterEnd : string := "Start date must be before end date".
Definition noShiftData : string := "No valid shift data found in city sheets".
Definition noEmployeeData : string := "No employee data found in 'All' sheet".

(** A time of day printed as two digits of hours, a colon and two
    digits of minutes. *)
Definition isHHmm (s : string) : Prop :=
  exists h m, 0 <= h < 24 /\ 0 <= m < 60 /\ s = Js.pad2 h +:+ ":" +:+ Js.pad2 m.

(** What a time field of a shift record holds. *)
Definition timeText (s : string) : Prop := isHHmm s \/ s = "Invalid Time".

(** The condition under which [prepareRawData] keeps a row. *)
Definition retained (Date_toString : Z -> string) (row : RawRow) : bool :=
  Js.truthy (col1 row) && Js.truthy (col5 row)
  && negb (excludedStatus (Js.trim (String_ Date_toString (col5 row)))).

(** The object built for a kept row. *)
Definition recordOf (Date_parse : string -> option Z) (Date_toString : Z -> string)
    (city : string) (row : RawRow) : Row.t Js.Cell :=
  Row.mk (Js.trim (String_ Date_toString (col1 row)))
         (Js.trim (String_ Date_toString (col5 row)))
         (col7 row)
         (formatTime Date_parse (col9 row))
         (formatTime Date_parse (col10 row))
         city.



(** The ingested records with the time values of their planned start
    dates, when all these dates are valid. *)
Fixpoint allDated (Date_parse : string -> option Z) (rawData : list (Row.t Js.Cell))
  : option (list (Row.t Z)) :=
  match rawData with
  | [] => Some []
  | row :: rawData' =>
      match dated Date_parse row, allDated Date_parse rawData' with
      | Some row', Some rows => Some (row' :: rows)
      | _, _ => None
      end
  end.



(** A zone of fixed offset: the next date is a day later. *)
Definition fixedOffset (zone : ScriptZone) : Prop :=
  forall t, nextDate zone t = t + Utilities.msPerDay.

(** ** Sample inputs *)

(** 2024-01-05T00:00:00Z. *)
Definition jan5 : Z := 1704412800000.

(** A zone of fixed offset. *)
Definition utcZone : ScriptZone :=
  mkScriptZone (fun t => t + Utilities.msPerDay)
    ltac:(intros t; unfold Utilities.msPerHour, Utilities.msPerDay; lia).

(** 2024-10-31T00:00:00Z and 2024-11-01T00:00:00Z. *)
Definition oct31 : Z := 1730332800000.
Definition nov1 : Z := 1730419200000.

(** A zone three hours ahead of UTC whose clocks go back an hour at its
    midnight between 31 October and 1 November 2024
    (2024-10-31T21:00:00Z), as they did in Cairo. *)
Definition clocksBack : Z := 1730408400000.

Definition fallBackOffset (t : Z) : Z :=
  if t <? clocksBack then 3 * Utilities.msPerHour else 2 * Utilities.msPerHour.

(** The same wall-clock time on the next day of that zone. *)
Definition fallBackNext (t : Z) : Z :=
  let wall := t + fallBackOffset t + Utilities.msPerDay in
  if wall - 3 * Utilities.msPerHour <? clocksBack
  then wall - 3 * Utilities.msPerHour
  else wall - 2 * Utilities.msPerHour.

Definition fallBackZone : ScriptZone :=
  mkScriptZone fallBackNext
    ltac:(intros t; unfold fallBackNext, fallBackOffset,
                           Utilities.msPerHour, Utilities.msPerDay;
          destruct (t <? clocksBack);
          match goal with |- context [if ?b then _ else _] => destruct b end; lia).

(** The message of the platform for a date that is none. *)
Definition sampleInvalidDate : string := "Invalid argument: date".

(** Three employees of one contract and city. *)
Definition sampleRoster : list Emp.t :=
  [ Emp.mk "E1" "Amal" "MTA" "Suez";
    Emp.mk "E2" "Basem" "MTA" "Suez";
    Emp.mk "E3" "Dina" "MTA" "Suez" ].

Definition sampleShift : Row.t Z :=
  Row.mk "E1" "Completed" jan5 "08:00" "16:00" "Suez".

(** A second shift of the same employee on the same day. *)
Definition sampleSecondShift : Row.t Z :=
  Row.mk "E1" "Completed" (jan5 + 10 * Utilities.msPerHour) "18:00" "21:30" "Suez".

(** A shift of somebody the roster does not list. *)
Definition sampleOutsiderShift : Row.t Z :=
  Row.mk "E9" "Completed" jan5 "09:00" "17:00" "Suez".

(** The row of the sample roster in a report over the single day
    [jan5], as the report writes it. *)
Definition sampleReportRow : ReportRow :=
  mkReportRow "MTA" "Suez" 3 [ mkSummaryCell 0 3 "0.00%" ].

(** A runtime that parses no string as a date and prints every date as
    the same text. *)
Definition parseNothing : string -> option Z := fun _ => None.
Definition printFixed : Z -> string := fun _ => "Fri Jan 05 2024".


(** A row with an id and a time window whose status cell is empty. *)
Definition rowWithoutStatus : RawRow :=
  mkRawRow (Js.CText "E1") (Js.CText "") (Js.CDate jan5)
           (Js.CDate (jan5 + 6 * Utilities.msPerHour))
           (Js.CDate (jan5 + 14 * Utilities.msPerHour)).

(** A row whose id cell holds blanks only. *)
Definition rowWithBlankId : RawRow :=
  mkRawRow (Js.CText "   ") (Js.CText "Completed") (Js.CDate jan5)
           (Js.CDate (jan5 + 6 * Utilities.msPerHour))
           (Js.CDate (jan5 + 14 * Utilities.msPerHour)).

(** A row that is kept, with blanks around its id and an end time that
    is no date. *)
Definition rowCompleted : RawRow :=
  mkRawRow (Js.CText " E1 ") (Js.CText "Completed ") (Js.CDate jan5)
           (Js.CDate (jan5 + 6 * Utilities.msPerHour))
           (Js.CText "late").

(** A row of an employee who did not show up. *)
Definition rowNoShow : RawRow :=
  mkRawRow (Js.CText "E2") (Js.CText "No_Show") (Js.CDate jan5)
           (Js.CDate (jan5 + 6 * Utilities.msPerHour))
           (Js.CDate (jan5 + 14 * Utilities.msPerHour)).

(** A spreadsheet with one city sheet, a roster of three and sheets of
    an earlier run. *)
Definition sampleSpreadsheet : Spreadsheet :=
  mkSpreadsheet
    {[ "Suez" := [rowCompleted; rowNoShow; rowWithoutStatus] ]}
    (Some [ mkAllRow (Js.CText "E1 ") (Js.CText "Amal") (Js.CText "MTA") (Js.CText "Suez");
            mkAllRow (Js.CText "E2") (Js.CText "Basem") (Js.CText "MTA") (Js.CText "Suez");
            mkAllRow (Js.CText "E3") (Js.CText "Dina") (Js.CText "MTA") (Js.CText "Suez") ])
    [ "Suez"; "All"; "Notes"; "Shifts_04-Jan-2024"; "Unassigned_04-Jan-2024";
      "Master_Report" ].

(** ** Sheets and headers a run writes *)

Definition monthAbbrev (m : Z) : string :=
  match m with
  | 1 => "Jan" | 2 => "Feb" | 3 => "Mar" | 4 => "Apr" | 5 => "May" | 6 => "Jun"
  | 7 => "Jul" | 8 => "Aug" | 9 => "Sep" | 10 => "Oct" | 11 => "Nov" | _ => "Dec"
  end.

(** Pattern ["dd-MMM"] of the headers of the master report. *)
Definition formatDate_ddMMM (tz t : Z) : string :=
  let '(y, m, d) := Utilities.civil (Utilities.localDay tz t) in
  Js.pad2 d +:+ "-" +:+ monthAbbrev m.

(** Pattern [DATE_FORMAT = "dd-MMM-yyyy"] of the names of the daily
    sheets. *)
Definition formatDate_ddMMMyyyy (tz t : Z) : string :=
  let '(y, m, d) := Utilities.civil (Utilities.localDay tz t) in
  Js.pad2 d +:+ "-" +:+ monthAbbrev m +:+ "-" +:+ Js.pad4 y.

(** [`Shifts_${dateStr}`] and [`Unassigned_${dateStr}`] of
    [createDailySheets]. *)
Definition shiftsSheetName (date : Z) : string :=
  "Shifts_" +:+ formatDate_ddMMMyyyy TIME_ZONE date.

Definition unassignedSheetName (date : Z) : string :=
  "Unassigned_" +:+ formatDate_ddMMMyyyy TIME_ZONE date.

(** The names of the sheets an effect inserts or fills. *)
Definition sheetsWritten (e : Event) : list string :=
  match e with
  | DailySheets date _ => [shiftsSheetName date; unassignedSheetName date]
  | MasterReport _ _ => ["Master_Report"]
  | _ => []
  end.

(** The header row of [generateMasterReport]. *)
Definition masterHeaders (dateList : list Z) : list string :=
  forEach dateList
    (fun headers date =>
       let dateStr := formatDate_ddMMM TIME_ZONE date in
       headers ++ [ dateStr +:+ " Assigned"; dateStr +:+ " Unassigned"; dateStr +:+ " %" ])
    [ "Contract"; "City"; "Total Employees" ].

(** A value written into a cell of the report. *)
Inductive Value : Type :=
| VText (s : string)
| VNum (n : Z).

(** The array [row] of [generateMasterReport] for a report row:
    contract, city, total and three values pushed for each date. *)
Definition rowValues (row : ReportRow) : list Value :=
  forEach (row_cells row)
    (fun values cell =>
       values ++ [ VNum (cell_assigned cell); VNum (cell_unassigned cell);
                   VText (cell_percentage cell) ])
    [ VText (row_contract row); VText (row_city row); VNum (row_total row) ].

(** ** Vocabulary of the further properties *)


(** The name of a sheet that [clearExistingSheets] takes for one of an
    earlier run. *)
Definition generatedName (sheetName : string) : bool :=
  Js.startsWith "Shifts_" sheetName
  || Js.startsWith "Unassigned_" sheetName
  || String.eqb sheetName "Master_Report".

(** The records ingested from the sheet of a city, none for a missing
    sheet. *)
Definition cityRecords (Date_parse : string -> option Z) (Date_toString : Z -> string)
    (ss : Spreadsheet) (city : string) : list (Row.t Js.Cell) :=
  map (recordOf Date_parse Date_toString city)
      (List.filter (retained Date_toString) (default [] (citySheets ss !! city))).

(** A non-empty string whose last character [trim] keeps. *)
Fixpoint lastKept (s : string) : bool :=
  match s with
  | EmptyString => false
  | String c EmptyString => negb (Js.is_ws c)
  | String _ s' => lastKept s'
  end.

(** A non-empty string whose first character [trim] keeps. *)
Definition firstKept (s : string) : bool :=
  match s with
  | EmptyString => false
  | String c _ => negb (Js.is_ws c)
  end.

(** The roster entry belongs to a pair of the fixed enumeration. *)
Definition inEnumeration (emp : Emp.t) : bool :=
  bool_decide ((Emp.contract emp, Emp.city emp) ∈ enumeration).

Definition sumTotals (rows : list ReportRow) : Z :=
  fold_right Z.add 0 (map row_total rows).

(** The roster entries whose id has a shift in the day's assigned
    list. *)
Definition assignedOfRoster (day : DailyData) (masterData : list Emp.t) : list Emp.t :=
  List.filter (fun emp => bool_decide (Emp.id emp ∈ assignedIdsOf (assigned day)))
              masterData.

(** * Properties *)

(** ** Strings *)

Section StringFacts.
Import Js.

Lemma trimStart_headKept s : headKept (trimStart s).
Proof.
  induction s as [|c s IH]; simpl; [exact I|].
  destruct (is_ws c) eqn:Hc; [exact IH | exact Hc].
Qed.

Lemma headKept_trimStart s : headKept s -> trimStart s = s.
Proof.
  destruct s as [|c s]; simpl; [reflexivity|].
  intros ->. reflexivity.
Qed.

Lemma trimEnd_headKept s : headKept s -> headKept (trimEnd s).
Proof.
  destruct s as [|c s]; simpl; [exact (fun H => H)|].
  intros Hc. rewrite Hc. destruct (trimEnd s); exact Hc.
Qed.

Lemma trimEnd_idem s : trimEnd (trimEnd s) = trimEnd s.
Proof.
  induction s as [|c s IH]; simpl; [reflexivity|].
  destruct (trimEnd s) as [|a r] eqn:Hr.
  - destruct (is_ws c) eqn:Hc; simpl; [reflexivity|]. rewrite Hc. reflexivity.
  - change (trimEnd (String c (String a r))) with
      (match trimEnd (String a r) with
       | EmptyString => if is_ws c then EmptyString else String c EmptyString
       | String _ _ as r' => String c r'
       end).
    rewrite IH. reflexivity.
Qed.

Lemma trim_trimmed s : trimmed (trim s).
Proof.
  unfold trimmed, trim. split.
  - apply headKept_trimStart, trimEnd_headKept, trimStart_headKept.
  - apply trimEnd_idem.
Qed.

Lemma noSep_sep_inside s1 s2 : noSep (s1 +:+ String "_" s2) = false.
Proof.
  induction s1 as [|c s1 IH]; simpl; [reflexivity|].
  rewrite IH. apply andb_false_r.
Qed.

Lemma keyOf_cons c y : keyOf c y = c +:+ String "_" y.
Proof. reflexivity. Qed.

(** A composite key whose two parts are free of the separator splits in
    one way only. *)
Lemma keyOf_inj c y ec ey :
  noSep c = true -> noSep y = true ->
  keyOf ec ey = keyOf c y -> ec = c /\ ey = y.
Proof.
  rewrite !keyOf_cons. revert c.
  induction ec as [|b ec IH]; intros [|a c] Hc Hy Heq; simpl in *.
  - injection Heq as Heq. subst ey. split; reflexivity.
  - injection Heq as Ha _. subst a. discriminate Hc.
  - injection Heq as Hb Heq. subst y. rewrite noSep_sep_inside in Hy. discriminate Hy.
  - injection Heq as Hb Heq. subst b. apply andb_prop in Hc as [_ Hc].
    destruct (IH c Hc Hy Heq) as [-> ->]. split; reflexivity.
Qed.

End StringFacts.

(** ** The insertion-ordered map *)

Section MapFacts.
Context {V : Type}.
Implicit Types (m : list (string * V)) (key : string).

Lemma get_Some_keys key m v : JsMap.get key m = Some v -> key ∈ JsMap.keys m.
Proof.
  induction m as [|[k w] m IH]; simpl; [discriminate|].
  destruct (String.eqb_spec k key) as [->|_]; intros H.
  - apply list_elem_of_here.
  - apply list_elem_of_further, IH, H.
Qed.

Lemma has_true_keys key m : JsMap.has key m = true -> key ∈ JsMap.keys m.
Proof.
  unfold JsMap.has. destruct (JsMap.get key m) eqn:Hg; [|discriminate].
  intros _. eapply get_Some_keys, Hg.
Qed.

Lemma update_keys key f m : JsMap.keys (JsMap.update key f m) = JsMap.keys m.
Proof.
  induction m as [|[k w] m IH]; simpl; [reflexivity|].
  destruct (String.eqb k key); simpl; [reflexivity|].
  f_equal. exact IH.
Qed.

Lemma update_absent key f m : key ∉ JsMap.keys m -> JsMap.update key f m = m.
Proof.
  induction m as [|[k w] m IH]; simpl; [reflexivity|].
  intros Hnotin. apply not_elem_of_cons in Hnotin as [Hne Hnotin].
  destruct (String.eqb_spec k key) as [->|_]; [contradiction|].
  f_equal. apply IH, Hnotin.
Qed.

(** The guard [if (m.has(key))] adds nothing to an update in place. *)
Lemma guarded_update key f m :
  (if JsMap.has key m then JsMap.update key f m else m) = JsMap.update key f m.
Proof.
  destruct (JsMap.has key m) eqn:Hhas; [reflexivity|].
  symmetry. apply update_absent. intros Hin.
  unfold JsMap.has in Hhas.
  induction m as [|[k w] m IH]; simpl in *; [inversion Hin|].
  destruct (String.eqb_spec k key) as [->|Hne]; [discriminate|].
  apply IH; [exact Hhas|].
  apply elem_of_cons in Hin as [->|Hin]; [contradiction|exact Hin].
Qed.

(** With distinct keys an update in place is a pointwise change. *)
Lemma update_pointwise key f m :
  NoDup (JsMap.keys m) ->
  JsMap.update key f m =
  map (fun kv => if String.eqb kv.1 key then (kv.1, f kv.2) else kv) m.
Proof.
  induction m as [|[k w] m IH]; simpl; [reflexivity|].
  intros Hnd. apply NoDup_cons in Hnd as [Hk Hnd].
  destruct (String.eqb_spec k key) as [->|Hne].
  - f_equal. rewrite <- (IH Hnd). symmetry. apply update_absent, Hk.
  - f_equal. apply IH, Hnd.
Qed.

End MapFacts.

(** ** The contract map of the master report *)

#[local] Arguments dateKey : simpl never.
#[local] Arguments keyOf : simpl never.
#[local] Arguments summaryCell : simpl never.

Lemma addTotal_0 e : addTotal 0 e = e.
Proof. destruct e. unfold addTotal. simpl. f_equal. lia. Qed.

Lemma countKey_cons key emp masterData :
  countKey key (emp :: masterData) =
  (if String.eqb key (keyOf (Emp.contract emp) (Emp.city emp)) then 1 else 0)
  + countKey key masterData.
Proof.
  unfold countKey. simpl.
  destruct (String.eqb key _); simpl length; lia.
Qed.

Lemma countTotals_keys masterData contractMap :
  JsMap.keys (countTotals masterData contractMap) = JsMap.keys contractMap.
Proof.
  unfold countTotals, forEach. revert contractMap.
  induction masterData as [|emp masterData IH]; intros contractMap; simpl;
    [reflexivity|].
  rewrite IH, guarded_update. apply update_keys.
Qed.

(** Step 2 of the report: every entry gains the number of roster
    entries that carry its key. *)
Lemma countTotals_pointwise masterData contractMap :
  NoDup (JsMap.keys contractMap) ->
  countTotals masterData contractMap =
  map (fun kv => (kv.1, addTotal (countKey kv.1 masterData) kv.2)) contractMap.
Proof.
  unfold countTotals, forEach. revert contractMap.
  induction masterData as [|emp masterData IH]; intros contractMap Hnd; simpl.
  - erewrite map_ext; [symmetry; apply map_id|].
    intros [k e]. simpl. f_equal. apply addTotal_0.
  - rewrite guarded_update, IH by (rewrite update_keys; exact Hnd).
    rewrite (update_pointwise _ _ _ Hnd), map_map.
    apply map_ext. intros [k e]. simpl.
    rewrite countKey_cons.
    destruct (String.eqb k _); simpl; f_equal;
      destruct e; unfold addTotal, incrTotal; simpl; f_equal; lia.
Qed.

(** Step 3 of the report changes nothing when no shift row has its key
    in the map. *)
Lemma countAssigned_absent dateList rawData contractMap :
  (forall row, rowKey row ∉ JsMap.keys contractMap) ->
  countAssigned dateList rawData contractMap = contractMap.
Proof.
  intros Habsent. unfold countAssigned, forEach.
  induction dateList as [|date dateList IH]; cbn [fold_left]; [reflexivity|].
  match goal with
  | |- fold_left ?outer dateList (fold_left ?inner ?rows contractMap) = _ =>
      assert (Hinner : fold_left inner rows contractMap = contractMap)
  end.
  { generalize (List.filter
      (fun row => String.eqb (dateKey (Row.plannedStartDate row)) (dateKey date))
      rawData) as rows.
    induction rows as [|row rows IHrows]; cbn [fold_left]; [reflexivity|].
    rewrite guarded_update, update_absent by apply Habsent. exact IHrows. }
  rewrite Hinner. exact IH.
Qed.

(** Step 4 of the report: the entries with employees, in map order. *)
Lemma populate_rows dateList contractMap :
  populate dateList contractMap =
  map (fun kv => rowOfEntry dateList kv.2)
      (List.filter (fun kv => total kv.2 >? 0) contractMap).
Proof.
  unfold populate, forEach.
  enough (Hgen : forall rows,
    fold_left
      (fun rows '(_, value) =>
         if total value >? 0 then
           rows ++ [ mkReportRow (entry_contract value) (entry_city value) (total value)
                                 (map (summaryCell value) dateList) ]
         else rows)
      contractMap rows
    = rows ++ map (fun kv => rowOfEntry dateList kv.2)
                  (List.filter (fun kv => total kv.2 >? 0) contractMap))
    by apply (Hgen []).
  induction contractMap as [|[k e] contractMap IH]; intros rows; simpl.
  - symmetry. apply app_nil_r.
  - rewrite IH. destruct (total e >? 0); simpl; [|reflexivity].
    rewrite <- app_assoc. reflexivity.
Qed.

(** ** The fixed enumeration *)

Lemma initContractMap_enumeration :
  initContractMap CONTRACTS CITIES =
  map (fun cy => (keyOf cy.1 cy.2, mkEntry cy.1 cy.2 0 ∅)) enumeration.
Proof. vm_compute. reflexivity. Qed.

Lemma enumeration_keys_NoDup :
  NoDup (JsMap.keys (initContractMap CONTRACTS CITIES)).
Proof.
  apply (bool_decide_unpack (NoDup (JsMap.keys (initContractMap CONTRACTS CITIES)))).
  vm_compute. exact I.
Qed.

Lemma enumeration_noSep cy :
  In cy enumeration -> noSep cy.1 = true /\ noSep cy.2 = true.
Proof.
  intros Hin.
  assert (Hall : forallb (fun cy => noSep cy.1 && noSep cy.2) enumeration = true)
    by (vm_compute; reflexivity).
  rewrite forallb_forall in Hall. apply andb_prop, Hall, Hin.
Qed.

Lemma enumeration_contract cy : In cy enumeration -> In cy.1 CONTRACTS.
Proof.
  destruct cy as [c y]. unfold enumeration. rewrite in_prod_iff. intros [H _]. exact H.
Qed.

Lemma undefined_not_contract : ~ In "undefined" CONTRACTS.
Proof.
  intros Hin. apply list_elem_of_In in Hin. revert Hin.
  apply (bool_decide_eq_false_1 ("undefined" ∈ CONTRACTS)).
  vm_compute. reflexivity.
Qed.

(** On the enumeration the composite key identifies the pair: the
    entries counted under a key are those of its contract and city. *)
Lemma countKey_countMatching cy masterData :
  In cy enumeration ->
  countKey (keyOf cy.1 cy.2) masterData = countMatching cy.1 cy.2 masterData.
Proof.
  intros Hin. destruct (enumeration_noSep cy Hin) as [Hc Hy].
  unfold countKey, countMatching. do 2 f_equal.
  apply filter_ext. intros emp.
  destruct (String.eqb_spec (keyOf cy.1 cy.2) (keyOf (Emp.contract emp) (Emp.city emp)))
    as [Heq|Hne].
  - symmetry in Heq. destruct (keyOf_inj _ _ _ _ Hc Hy Heq) as [-> ->].
    rewrite !String.eqb_refl. reflexivity.
  - destruct (String.eqb_spec (Emp.contract emp) cy.1) as [Hc'|_]; [|reflexivity].
    destruct (String.eqb_spec (Emp.city emp) cy.2) as [Hy'|_]; [|reflexivity].
    exfalso. apply Hne. rewrite Hc', Hy'. reflexivity.
Qed.

(** The key the report computes for a shift row is never one of the
    map: the row has no [contract] property. *)
Lemma rowKey_absent masterData row :
  rowKey row ∉ JsMap.keys (countTotals masterData (initContractMap CONTRACTS CITIES)).
Proof.
  rewrite countTotals_keys, initContractMap_enumeration.
  unfold JsMap.keys. rewrite map_map.
  intros Hin. apply list_elem_of_In, in_map_iff in Hin as [cy [Hkey Hin]].
  cbn [fst] in Hkey.
  destruct (enumeration_noSep cy Hin) as [Hc Hy].
  change (rowKey row) with (keyOf "undefined" (Row.city row)) in Hkey.
  symmetry in Hkey. destruct (keyOf_inj _ _ _ _ Hc Hy Hkey) as [Hundef _].
  apply undefined_not_contract. rewrite Hundef.
  apply enumeration_contract, Hin.
Qed.

Lemma counted_rows dateList masterData (l : list (string * string)) :
  (forall cy, In cy l -> In cy enumeration) ->
  map (fun kv : string * Entry => rowOfEntry dateList kv.2)
      (List.filter (fun kv : string * Entry => total kv.2 >? 0)
         (map (fun cy : string * string =>
                 (keyOf cy.1 cy.2,
                  addTotal (countKey (keyOf cy.1 cy.2) masterData)
                           (mkEntry cy.1 cy.2 0 ∅)))
              l))
  = map (fun cy => rowOfEntry dateList (countedEntry masterData cy))
        (List.filter (fun cy => countMatching cy.1 cy.2 masterData >? 0) l).
Proof.
  induction l as [|cy l IH]; intros Hsub; [reflexivity|].
  assert (Htotal : total (addTotal (countKey (keyOf cy.1 cy.2) masterData)
                                   (mkEntry cy.1 cy.2 0 ∅))
                   = countMatching cy.1 cy.2 masterData).
  { cbn [total addTotal]. rewrite Z.add_0_l.
    apply countKey_countMatching, Hsub. left. reflexivity. }
  assert (Hentry : addTotal (countKey (keyOf cy.1 cy.2) masterData)
                            (mkEntry cy.1 cy.2 0 ∅)
                   = countedEntry masterData cy).
  { unfold countedEntry. rewrite <- Htotal. reflexivity. }
  cbn [map List.filter snd]. rewrite Htotal.
  destruct (countMatching cy.1 cy.2 masterData >? 0); cbn [map snd];
    rewrite IH by (intros cy' Hin; apply Hsub; right; exact Hin);
    [rewrite Hentry|]; reflexivity.
Qed.

(** The report, row by row: the pairs of the enumeration that have
    employees, in enumeration order, each with the number of its roster
    entries and no assigned counter at any date. *)
Lemma generateMasterReport_rows dateList masterData rawData :
  generateMasterReport dateList masterData rawData =
  map (fun cy => rowOfEntry dateList (countedEntry masterData cy))
      (List.filter (fun cy => countMatching cy.1 cy.2 masterData >? 0) enumeration).
Proof.
  unfold generateMasterReport, masterReportOver.
  rewrite countAssigned_absent by apply rowKey_absent.
  rewrite populate_rows, countTotals_pointwise by apply enumeration_keys_NoDup.
  rewrite initContractMap_enumeration, map_map.
  apply (counted_rows dateList masterData enumeration). auto.
Qed.

(** ** The master report *)

Lemma summaryCell_sum value date :
  cell_assigned (summaryCell value date) + cell_unassigned (summaryCell value date)
  = total value.
Proof. unfold summaryCell. cbn [cell_assigned cell_unassigned]. lia. Qed.

Lemma summaryCell_key value date date' :
  dateKey date = dateKey date' -> summaryCell value date = summaryCell value date'.
Proof. unfold summaryCell. intros ->. reflexivity. Qed.

Lemma map_through {A B C : Type} (k : A -> B) (f : A -> C) (l l' : list A) :
  (forall a a', k a = k a' -> f a = f a') ->
  map k l = map k l' -> map f l = map f l'.
Proof.
  intros Hf. revert l'.
  induction l as [|a l IH]; intros [|a' l'] Heq; try discriminate Heq;
    [reflexivity|].
  injection Heq as Ha Heq. cbn [map].
  rewrite (Hf a a' Ha), (IH l' Heq). reflexivity.
Qed.

Lemma report_row_inv dateList masterData rawData row :
  In row (generateMasterReport dateList masterData rawData) ->
  exists cy, In cy enumeration
    /\ countMatching cy.1 cy.2 masterData > 0
    /\ row = rowOfEntry dateList (countedEntry masterData cy).
Proof.
  rewrite generateMasterReport_rows, in_map_iff.
  intros [cy [<- Hin]]. apply filter_In in Hin as [Hin Hpos].
  exists cy. repeat split; [exact Hin | lia].
Qed.

(** C3. In every row of the master report the assigned and unassigned
    numbers of every date cell add up to the row's total, the row has one
    cell per date, and the total, one number for the whole row, is the
    number of roster entries with the row's contract and city. *)
Theorem report_cells_add_up dateList masterData rawData row :
  In row (generateMasterReport dateList masterData rawData) ->
  row_total row = countMatching (row_contract row) (row_city row) masterData
  /\ length (row_cells row) = length dateList
  /\ forall cell, In cell (row_cells row) ->
       cell_assigned cell + cell_unassigned cell = row_total row.
Proof.
  intros Hin. apply report_row_inv in Hin as [cy [_ [_ ->]]].
  cbn [rowOfEntry row_total row_contract row_city row_cells countedEntry
       entry_contract entry_city total].
  split; [reflexivity|]. split; [apply length_map|].
  intros cell Hcell. apply in_map_iff in Hcell as [date [<- _]].
  apply summaryCell_sum.
Qed.

Lemma report_cells_add_up_witness :
  In sampleReportRow (generateMasterReport [jan5] sampleRoster [sampleShift])
  /\ row_total sampleReportRow
     = countMatching (row_contract sampleReportRow) (row_city sampleReportRow) sampleRoster
  /\ length (row_cells sampleReportRow) = length [jan5]
  /\ forall cell, In cell (row_cells sampleReportRow) ->
       cell_assigned cell + cell_unassigned cell = row_total sampleReportRow.
Proof.
  assert (Hin : In sampleReportRow (generateMasterReport [jan5] sampleRoster [sampleShift]))
    by (vm_compute; left; reflexivity).
  split; [exact Hin|].
  exact (report_cells_add_up [jan5] sampleRoster [sampleShift] sampleReportRow Hin).
Defined.

(** C8. A pair of contract and city that no roster entry carries has no
    row in the master report, whatever the shift rows are; every row
    that is written has a positive total. *)
Theorem report_omits_empty_pairs dateList masterData rawData :
  (forall row, In row (generateMasterReport dateList masterData rawData) ->
     0 < row_total row)
  /\ (forall contract city,
        countMatching contract city masterData = 0 ->
        ~ exists row, In row (generateMasterReport dateList masterData rawData)
                      /\ row_contract row = contract /\ row_city row = city).
Proof.
  split.
  - intros row Hin. apply report_row_inv in Hin as [cy [_ [Hpos ->]]].
    cbn [rowOfEntry row_total countedEntry total]. lia.
  - intros contract city Hzero [row [Hin [Hc Hy]]].
    apply report_row_inv in Hin as [cy [_ [Hpos ->]]].
    cbn [rowOfEntry row_contract row_city countedEntry entry_contract entry_city] in Hc, Hy.
    subst contract city. lia.
Qed.

Lemma report_omits_empty_pairs_witness :
  countMatching "Wasaly" "Suez" sampleRoster = 0
  /\ ~ exists row,
        In row (generateMasterReport [jan5] sampleRoster [sampleShift; sampleOutsiderShift])
        /\ row_contract row = "Wasaly" /\ row_city row = "Suez".
Proof.
  split; [reflexivity|].
  apply (proj2 (report_omits_empty_pairs [jan5] sampleRoster
                  [sampleShift; sampleOutsiderShift]) "Wasaly" "Suez").
  reflexivity.
Defined.

(** C9. The master report is a function of its inputs, and of the dates
    it reads only the date keys: two lists of dates with the same keys,
    however the date values were built, give the same rows in the same
    order. The rows follow the fixed enumeration of contracts and
    cities, contract by contract. *)
Theorem report_deterministic_in_enumeration_order
    dateList dateList' masterData rawData :
  map dateKey dateList = map dateKey dateList' ->
  generateMasterReport dateList masterData rawData
  = generateMasterReport dateList' masterData rawData
  /\ map (fun row => (row_contract row, row_city row))
         (generateMasterReport dateList masterData rawData)
     = List.filter (fun cy => countMatching cy.1 cy.2 masterData >? 0) enumeration.
Proof.
  intros Hkeys. rewrite !generateMasterReport_rows. split.
  - apply map_ext. intros cy. unfold rowOfEntry. f_equal.
    apply (map_through dateKey); [apply summaryCell_key | exact Hkeys].
  - rewrite map_map. cbn [rowOfEntry row_contract row_city countedEntry
                          entry_contract entry_city].
    erewrite map_ext; [apply map_id|]. intros [c y]. reflexivity.
Qed.

Lemma report_deterministic_in_enumeration_order_witness :
  generateMasterReport [jan5] sampleRoster [sampleShift]
  = generateMasterReport [jan5 + 1] sampleRoster [sampleShift]
  /\ map (fun row => (row_contract row, row_city row))
         (generateMasterReport [jan5] sampleRoster [sampleShift])
     = List.filter (fun cy => countMatching cy.1 cy.2 sampleRoster >? 0) enumeration.
Proof.
  apply (report_deterministic_in_enumeration_order [jan5] [jan5 + 1]
           sampleRoster [sampleShift]).
  vm_compute. reflexivity.
Defined.

(** Every cell of every row reports no assigned employee, whatever the
    shift rows are: the key of a shift row starts with [undefined]. *)
Lemma report_assigned_always_zero dateList masterData rawData row cell :
  In row (generateMasterReport dateList masterData rawData) ->
  In cell (row_cells row) ->
  cell_assigned cell = 0 /\ cell_unassigned cell = row_total row.
Proof.
  intros Hin Hcell. apply report_row_inv in Hin as [cy [_ [_ ->]]].
  cbn [rowOfEntry row_cells row_total] in *.
  apply in_map_iff in Hcell as [date [<- _]].
  unfold summaryCell, countedEntry. cbn [dates total cell_assigned cell_unassigned].
  rewrite lookup_empty. split; lia.
Qed.

(** C1 (defect of the code). The roster lists E1 under contract MTA in
    Suez and E1 has a shift on 5 January 2024, so the join through the
    roster would count one assigned employee for MTA in Suez on that
    date. The report counts none: the key it builds for the shift row
    reads the [contract] property, which a shift row does not have. *)
Theorem report_misses_roster_join :
  In (Emp.mk "E1" "Amal" "MTA" "Suez") sampleRoster
  /\ assigned (processDailyData [sampleShift] jan5 sampleRoster) = [sampleShift]
  /\ rowKey sampleShift = "undefined_Suez"
  /\ generateMasterReport [jan5] sampleRoster [sampleShift]
     = [ mkReportRow "MTA" "Suez" 3 [ mkSummaryCell 0 3 "0.00%" ] ].
Proof. repeat split; vm_compute; auto. Qed.

(** C4 (defect of the code). E1 has two shifts on 5 January 2024. Both
    are in the day's assigned list and E1 counts once for the
    classification: the set of assigned ids is {E1} and the unassigned
    are E2 and E3. The summary cell of MTA in Suez however counts E1
    not once but not at all: 0 assigned, 3 unassigned, 0.00%. *)
Theorem double_shift_not_counted_in_cell :
  let day := processDailyData [sampleShift; sampleSecondShift] jan5 sampleRoster in
  assigned day = [sampleShift; sampleSecondShift]
  /\ elements (assignedIdsOf (assigned day)) = ["E1"]
  /\ map Emp.id (unassigned day) = ["E2"; "E3"]
  /\ generateMasterReport [jan5] sampleRoster [sampleShift; sampleSecondShift]
     = [ mkReportRow "MTA" "Suez" 3 [ mkSummaryCell 0 3 "0.00%" ] ].
Proof. repeat split; vm_compute; reflexivity. Qed.

(** ** The daily classification *)

Lemma assigned_filter rawData targetDate masterData :
  assigned (processDailyData rawData targetDate masterData)
  = filter (fun row => dateKey (Row.plannedStartDate row) = dateKey targetDate) rawData.
Proof.
  unfold processDailyData. cbn [assigned].
  induction rawData as [|row rawData IH]; [reflexivity|].
  cbn [List.filter]. rewrite filter_cons.
  destruct (String.eqb_spec (dateKey (Row.plannedStartDate row)) (dateKey targetDate))
    as [Heq|Hne].
  - rewrite decide_True by exact Heq. f_equal. exact IH.
  - rewrite decide_False by exact Hne. exact IH.
Qed.

Lemma unassigned_spec rawData targetDate masterData emp :
  In emp (unassigned (processDailyData rawData targetDate masterData))
  <-> In emp masterData
      /\ Emp.id emp ∉ assignedIdsOf (assigned (processDailyData rawData targetDate masterData)).
Proof.
  unfold processDailyData. cbn [unassigned assigned].
  rewrite filter_In, negb_true_iff, bool_decide_eq_false. reflexivity.
Qed.

(** C2. On every date every roster entry is on exactly one side of the
    day's classification: its id is in the set of assigned ids or it is
    the id of an unassigned entry, and never both. *)
Theorem roster_partitioned rawData targetDate masterData r :
  In r masterData ->
  let day := processDailyData rawData targetDate masterData in
  (Emp.id r ∈ assignedIdsOf (assigned day) \/ In (Emp.id r) (map Emp.id (unassigned day)))
  /\ ~ (Emp.id r ∈ assignedIdsOf (assigned day)
        /\ In (Emp.id r) (map Emp.id (unassigned day))).
Proof.
  intros Hr day. subst day. split.
  - destruct (decide (Emp.id r ∈
        assignedIdsOf (assigned (processDailyData rawData targetDate masterData))))
      as [Hin|Hout]; [left; exact Hin|].
    right. apply in_map, unassigned_spec. split; assumption.
  - intros [Hin Hun]. apply in_map_iff in Hun as [emp [Hid Hemp]].
    apply unassigned_spec in Hemp as [_ Hout]. rewrite Hid in Hout. contradiction.
Qed.

Lemma roster_partitioned_witness :
  In (Emp.mk "E2" "Basem" "MTA" "Suez") sampleRoster
  /\ ("E2" ∈ assignedIdsOf (assigned (processDailyData [sampleShift] jan5 sampleRoster))
      \/ In "E2" (map Emp.id (unassigned (processDailyData [sampleShift] jan5 sampleRoster))))
  /\ ~ ("E2" ∈ assignedIdsOf (assigned (processDailyData [sampleShift] jan5 sampleRoster))
        /\ In "E2" (map Emp.id (unassigned (processDailyData [sampleShift] jan5 sampleRoster)))).
Proof.
  assert (Hin : In (Emp.mk "E2" "Basem" "MTA" "Suez") sampleRoster)
    by (simpl; right; left; reflexivity).
  split; [exact Hin|].
  exact (roster_partitioned [sampleShift] jan5 sampleRoster
           (Emp.mk "E2" "Basem" "MTA" "Suez") Hin).
Defined.

(** C10. The assigned list of a day is the list of the shift rows whose
    planned start date has the key of the target date, in input order.
    The roster plays no part in it: every such row is in the list and
    its employee id is in the set of assigned ids, whether or not a
    roster entry has that id. The unassigned are roster entries. *)
Theorem assigned_not_restricted_to_roster rawData targetDate masterData :
  let day := processDailyData rawData targetDate masterData in
  assigned day
  = filter (fun row => dateKey (Row.plannedStartDate row) = dateKey targetDate) rawData
  /\ (forall row,
        In row rawData ->
        dateKey (Row.plannedStartDate row) = dateKey targetDate ->
        (forall emp, In emp masterData -> Emp.id emp <> Row.employeeId row) ->
        In row (assigned day) /\ Row.employeeId row ∈ assignedIdsOf (assigned day))
  /\ (forall emp, In emp (unassigned day) -> In emp masterData).
Proof.
  intros day. subst day. split; [apply assigned_filter|]. split.
  - intros row Hrow Hkey _.
    assert (Hin : In row (assigned (processDailyData rawData targetDate masterData))).
    { rewrite assigned_filter. apply list_elem_of_In, list_elem_of_filter.
      split; [exact Hkey | apply list_elem_of_In, Hrow]. }
    split; [exact Hin|].
    unfold assignedIdsOf. apply elem_of_list_to_set, list_elem_of_In, in_map, Hin.
  - intros emp Hemp. apply unassigned_spec in Hemp as [Hemp _]. exact Hemp.
Qed.

Lemma assigned_not_restricted_to_roster_witness :
  In sampleOutsiderShift [sampleShift; sampleOutsiderShift]
  /\ dateKey (Row.plannedStartDate sampleOutsiderShift) = dateKey jan5
  /\ (forall emp, In emp sampleRoster -> Emp.id emp <> Row.employeeId sampleOutsiderShift)
  /\ In sampleOutsiderShift
        (assigned (processDailyData [sampleShift; sampleOutsiderShift] jan5 sampleRoster))
  /\ Row.employeeId sampleOutsiderShift
       ∈ assignedIdsOf
           (assigned (processDailyData [sampleShift; sampleOutsiderShift] jan5 sampleRoster)).
Proof.
  assert (Hrow : In sampleOutsiderShift [sampleShift; sampleOutsiderShift])
    by (simpl; right; left; reflexivity).
  assert (Hkey : dateKey (Row.plannedStartDate sampleOutsiderShift) = dateKey jan5)
    by reflexivity.
  assert (Hout : forall emp, In emp sampleRoster ->
                   Emp.id emp <> Row.employeeId sampleOutsiderShift).
  { intros emp [<-|[<-|[<-|[]]]]; simpl; discriminate. }
  split; [exact Hrow|]. split; [exact Hkey|]. split; [exact Hout|].
  exact (proj1 (proj2 (assigned_not_restricted_to_roster
                         [sampleShift; sampleOutsiderShift] jan5 sampleRoster))
           sampleOutsiderShift Hrow Hkey Hout).
Defined.

(** ** The date range *)

Lemma getDateRange_loop_step zone current end_ dateList :
  getDateRange_loop zone current end_ dateList =
  if current <=? end_
  then getDateRange_loop zone (nextDate zone current) end_ (dateList ++ [current])
  else dateList.
Proof.
  rewrite getDateRange_loop_equation_1.
  destruct (Z_le_dec current end_) as [Hle|Hgt]; simpl.
  - apply Z.leb_le in Hle. rewrite Hle. reflexivity.
  - apply Z.leb_nle in Hgt. rewrite Hgt. reflexivity.
Qed.

(** The loop only appends to the dates it has. *)
Lemma getDateRange_loop_app zone current end_ dateList :
  exists more, getDateRange_loop zone current end_ dateList = dateList ++ more.
Proof.
  funelim (getDateRange_loop zone current end_ dateList).
  - match goal with
    | IH : exists more, getDateRange_loop _ _ _ _ = _ |- _ =>
        destruct IH as [more Hmore];
        exists (current :: more); rewrite Hmore, <- app_assoc; reflexivity
    end.
  - exists []. symmetry. apply app_nil_r.
Qed.

(** In any zone a range that does not end before its start begins with
    the start date, and a range that does is empty. *)
Lemma getDateRange_nonempty zone start end_ :
  start <= end_ -> exists rest, getDateRange zone start end_ = start :: rest.
Proof.
  intros Hle. unfold getDateRange. rewrite getDateRange_loop_step.
  replace (start <=? end_) with true by (symmetry; apply Z.leb_le; exact Hle).
  destruct (getDateRange_loop_app zone (nextDate zone start) end_ ([] ++ [start]))
    as [more ->].
  exists more. reflexivity.
Qed.

Lemma getDateRange_reversed zone start end_ :
  end_ < start -> getDateRange zone start end_ = [].
Proof.
  intros Hlt. unfold getDateRange. rewrite getDateRange_loop_step.
  replace (start <=? end_) with false by (symmetry; apply Z.leb_gt; exact Hlt).
  reflexivity.
Qed.

Lemma daysFrom_S start n :
  daysFrom start (S n) = start :: daysFrom (start + Utilities.msPerDay) n.
Proof.
  unfold daysFrom. cbn [seq map]. f_equal; [lia|].
  rewrite <- seq_shift, map_map. apply map_ext. intros k. lia.
Qed.

(** In a zone of fixed offset the loop pushes the [n] dates that are
    left when the [n]-th of them is the last one that is not after the
    end. *)
Lemma getDateRange_loop_days zone n :
  fixedOffset zone ->
  forall current end_ dateList,
    end_ < current + Z.of_nat n * Utilities.msPerDay ->
    (n = 0%nat \/ current + (Z.of_nat n - 1) * Utilities.msPerDay <= end_) ->
    getDateRange_loop zone current end_ dateList = dateList ++ daysFrom current n.
Proof.
  intros Hfixed.
  induction n as [|n IH]; intros current end_ dateList Hafter Hlast;
    rewrite getDateRange_loop_step.
  - replace (current <=? end_) with false by (symmetry; apply Z.leb_gt; lia).
    symmetry. apply app_nil_r.
  - destruct Hlast as [Hzero|Hlast]; [discriminate Hzero|].
    assert (HD : 0 < Utilities.msPerDay) by reflexivity.
    replace (current <=? end_) with true by (symmetry; apply Z.leb_le; nia).
    rewrite Hfixed, IH, daysFrom_S, <- app_assoc; [reflexivity | lia |].
    destruct n as [|n]; [left; reflexivity | right; lia].
Qed.

Lemma getDateRange_days zone start end_ :
  fixedOffset zone ->
  start <= end_ ->
  getDateRange zone start end_
  = daysFrom start (S (Z.to_nat ((end_ - start) / Utilities.msPerDay))).
Proof.
  intros Hfixed Hle. unfold getDateRange.
  assert (HD : 0 < Utilities.msPerDay) by reflexivity.
  assert (Hq : 0 <= (end_ - start) / Utilities.msPerDay) by (apply Z.div_pos; lia).
  pose proof (Z.mul_div_le (end_ - start) _ HD) as Hlow.
  pose proof (Z.mul_succ_div_gt (end_ - start) _ HD) as Hhigh.
  rewrite (getDateRange_loop_days zone
             (S (Z.to_nat ((end_ - start) / Utilities.msPerDay))) Hfixed);
    [reflexivity | |].
  - rewrite Nat2Z.inj_succ, Z2Nat.id by exact Hq. lia.
  - right. rewrite Nat2Z.inj_succ, Z2Nat.id by exact Hq. lia.
Qed.

Lemma In_daysFrom d start n :
  In d (daysFrom start n)
  <-> exists k, (k < n)%nat /\ d = start + Z.of_nat k * Utilities.msPerDay.
Proof.
  unfold daysFrom. rewrite in_map_iff. split.
  - intros [k [<- Hk]]. apply in_seq in Hk. exists k. split; [lia | reflexivity].
  - intros [k [Hk ->]]. exists k. split; [reflexivity | apply in_seq; lia].
Qed.

Lemma daysFrom_lookup start n i d :
  daysFrom start n !! i = Some d ->
  (i < n)%nat /\ d = start + Z.of_nat i * Utilities.msPerDay.
Proof.
  unfold daysFrom. rewrite list_lookup_fmap.
  destruct (seq 0 n !! i) as [k|] eqn:Hk; [|discriminate].
  apply lookup_seq in Hk as [-> Hlt]. cbn. intros [= <-]. split; [exact Hlt | lia].
Qed.

(** In a zone of fixed offset, as long as the end is a whole number of
    days after the start (the two dates of the date picker are), the
    range is what the claim says: every date from the start to the end
    inclusive, a day apart. *)
Lemma getDateRange_fixed_zone zone start end_ :
  fixedOffset zone ->
  start <= end_ ->
  getDateRange zone start end_ !! 0%nat = Some start
  /\ (forall i d d', getDateRange zone start end_ !! i = Some d ->
                     getDateRange zone start end_ !! S i = Some d' ->
                     d' = d + Utilities.msPerDay)
  /\ (forall d, In d (getDateRange zone start end_)
                <-> start <= d <= end_ /\ (Utilities.msPerDay | d - start)).
Proof.
  intros Hfixed Hle.
  assert (HD : 0 < Utilities.msPerDay) by reflexivity.
  rewrite (getDateRange_days _ _ _ Hfixed Hle).
  assert (Hq : 0 <= (end_ - start) / Utilities.msPerDay) by (apply Z.div_pos; lia).
  pose proof (Z.mul_div_le (end_ - start) _ HD) as Hlow.
  split; [|split].
  - rewrite daysFrom_S. cbn. reflexivity.
  - intros i d d' Hi HSi.
    apply daysFrom_lookup in Hi as [_ ->]. apply daysFrom_lookup in HSi as [_ ->]. lia.
  - intros d. rewrite In_daysFrom. split.
    + intros [k [Hk ->]]. split; [nia|].
      exists (Z.of_nat k). lia.
    + intros [[Hlo Hhi] [z Hz]].
      assert (Hz0 : 0 <= z) by nia.
      assert (Hzq : z <= (end_ - start) / Utilities.msPerDay)
        by (apply Z.div_le_lower_bound; lia).
      exists (Z.to_nat z). split; [lia|]. rewrite Z2Nat.id by exact Hz0. lia.
Qed.

(** C5 (defect of the code). The range from 31 October to 1 November
    2024, two dates of the date picker, should hold both dates. In a
    script zone whose clocks go back an hour in the night between them
    the loop returns the first date only: [setDate(getDate() + 1)]
    keeps the wall-clock time of the zone, so that the date after
    2024-10-31T00:00Z is 2024-11-01T01:00Z, an hour after the end date,
    and the end date is dropped. In a zone of fixed offset the same
    call returns both dates. *)
Theorem date_range_drops_end_after_clock_change :
  oct31 <= nov1
  /\ dateKey oct31 = "2024-10-31" /\ dateKey nov1 = "2024-11-01"
  /\ nextDate fallBackZone oct31 = nov1 + Utilities.msPerHour
  /\ getDateRange fallBackZone oct31 nov1 = [oct31]
  /\ getDateRange utcZone oct31 nov1 = [oct31; nov1].
Proof. repeat split; vm_compute; congruence. Qed.

(** ** The two filters on the planned start date *)

Lemma onDate_dated Date_parse invalidDateMessage dateStr row row' :
  dated Date_parse row = Some row' ->
  onDate Date_parse invalidDateMessage dateStr row
  = inr (if String.eqb (dateKey (Row.plannedStartDate row')) dateStr
         then Some row' else None).
Proof. intros Hrow. unfold onDate. rewrite Hrow. reflexivity. Qed.

Lemma onDate_invalid Date_parse invalidDateMessage dateStr row :
  dated Date_parse row = None ->
  onDate Date_parse invalidDateMessage dateStr row
  = inl (PlatformException invalidDateMessage).
Proof. intros Hrow. unfold onDate. rewrite Hrow. reflexivity. Qed.

Lemma filterThrowing_dated Date_parse invalidDateMessage dateStr rawData rows :
  allDated Date_parse rawData = Some rows ->
  filterThrowing (onDate Date_parse invalidDateMessage dateStr) rawData
  = inr (List.filter
           (fun row => String.eqb (dateKey (Row.plannedStartDate row)) dateStr) rows).
Proof.
  revert rows. induction rawData as [|row rawData IH]; intros rows Hall;
    cbn [allDated filterThrowing] in *.
  - injection Hall as <-. reflexivity.
  - destruct (dated Date_parse row) as [row'|] eqn:Hrow; [|discriminate Hall].
    destruct (allDated Date_parse rawData) as [rows'|]; [|discriminate Hall].
    injection Hall as <-. rewrite (IH rows' eq_refl). cbn [List.filter].
    rewrite (onDate_dated _ _ _ _ _ Hrow).
    destruct (String.eqb (dateKey (Row.plannedStartDate row')) dateStr); reflexivity.
Qed.

Lemma filterThrowing_invalid Date_parse invalidDateMessage dateStr rawData :
  allDated Date_parse rawData = None ->
  filterThrowing (onDate Date_parse invalidDateMessage dateStr) rawData
  = inl (PlatformException invalidDateMessage).
Proof.
  induction rawData as [|row rawData IH]; intros Hall;
    cbn [allDated filterThrowing] in *; [discriminate Hall|].
  destruct (dated Date_parse row) as [row'|] eqn:Hrow.
  - destruct (allDated Date_parse rawData) as [rows'|]; [discriminate Hall|].
    rewrite (IH eq_refl), (onDate_dated _ _ _ _ _ Hrow). reflexivity.
  - rewrite (onDate_invalid _ _ _ _ Hrow). reflexivity.
Qed.

(** On records whose dates are all valid the classification is the one
    of their time values; one invalid date makes it throw. *)
Lemma processDailyData_cells_dated Date_parse invalidDateMessage rawData rows
    targetDate masterData :
  allDated Date_parse rawData = Some rows ->
  processDailyData_cells Date_parse invalidDateMessage rawData targetDate masterData
  = inr (processDailyData rows targetDate masterData).
Proof.
  intros Hall. unfold processDailyData_cells.
  rewrite (filterThrowing_dated _ _ _ _ _ Hall). reflexivity.
Qed.

Lemma processDailyData_cells_invalid Date_parse invalidDateMessage rawData
    targetDate masterData :
  allDated Date_parse rawData = None ->
  processDailyData_cells Date_parse invalidDateMessage rawData targetDate masterData
  = inl (PlatformException invalidDateMessage).
Proof.
  intros Hall. unfold processDailyData_cells.
  rewrite (filterThrowing_invalid _ _ _ _ Hall). reflexivity.
Qed.

Lemma countAssigned_cells_dated Date_parse invalidDateMessage rawData rows dateList :
  allDated Date_parse rawData = Some rows ->
  forall contractMap,
    countAssigned_cells Date_parse invalidDateMessage dateList rawData contractMap
    = inr (countAssigned dateList rows contractMap).
Proof.
  intros Hall. unfold countAssigned, forEach.
  induction dateList as [|date dateList IH]; intros contractMap;
    cbn [countAssigned_cells fold_left]; [reflexivity|].
  rewrite (filterThrowing_dated _ _ _ _ _ Hall). apply IH.
Qed.

Lemma generateMasterReport_cells_dated Date_parse invalidDateMessage rawData rows
    dateList masterData :
  allDated Date_parse rawData = Some rows ->
  generateMasterReport_cells Date_parse invalidDateMessage dateList masterData rawData
  = inr (generateMasterReport dateList masterData rows).
Proof.
  intros Hall. unfold generateMasterReport_cells.
  rewrite (countAssigned_cells_dated _ _ _ _ _ Hall). reflexivity.
Qed.

(** ** The pipeline *)

Lemma forEachRun_emit {A : Type} (f : A -> Event) (arr : list A) (log : list Event) :
  forEachRun arr (fun x => emit (f x)) log = (inr tt, log ++ map f arr).
Proof.
  revert log. induction arr as [|x arr IH]; intros log; cbn [forEachRun map].
  - unfold ret. rewrite app_nil_r. reflexivity.
  - unfold bind, emit at 1. rewrite IH, <- app_assoc. reflexivity.
Qed.

Lemma forEachRun_emits {A : Type} (body : A -> Run unit) (f : A -> Event)
    (arr : list A) :
  (forall x log, body x log = (inr tt, log ++ [f x])) ->
  forall log, forEachRun arr body log = (inr tt, log ++ map f arr).
Proof.
  intros Hbody. induction arr as [|x arr IH]; intros log; cbn [forEachRun map].
  - unfold ret. rewrite app_nil_r. reflexivity.
  - unfold bind. rewrite Hbody, IH, <- app_assoc. reflexivity.
Qed.

Lemma clearExistingSheets_run ss log :
  clearExistingSheets ss log = (inr tt, log ++ deletions ss).
Proof.
  unfold deletions, clearExistingSheets. rewrite !forEachRun_emit. reflexivity.
Qed.

Lemma deletions_no_report ss : Forall (fun e => isReportEvent e = false) (deletions ss).
Proof.
  unfold deletions, clearExistingSheets. rewrite forEachRun_emit.
  cbn [snd app]. apply Forall_map, Forall_forall. intros x _. reflexivity.
Qed.

(** The run of the body of the [try], check by check. After the three
    checks the first call of [processDailyData] formats the date of
    every ingested record. *)
Lemma processSelectedDates_try_run zone Date_parse Date_toString invalidDateMessage
    ss start end_ log :
  let rawData := prepareRawData Date_parse Date_toString ss in
  let masterData := getMasterData Date_toString ss in
  let dateList := getDateRange zone start end_ in
  processSelectedDates_try zone Date_parse Date_toString invalidDateMessage
    ss start end_ log =
  if start >? end_ then (inl (ScriptError startAfterEnd), log)
  else if (length rawData =? 0)%nat
       then (inl (ScriptError noShiftData), log ++ deletions ss)
  else if (length masterData =? 0)%nat
       then (inl (ScriptError noEmployeeData), log ++ deletions ss)
  else match allDated Date_parse rawData with
       | None => (inl (PlatformException invalidDateMessage), log ++ deletions ss)
       | Some rows =>
           (inr tt,
            (log ++ deletions ss)
            ++ map (fun date => DailySheets date (processDailyData rows date masterData))
                   dateList
            ++ [ MasterReport dateList (generateMasterReport dateList masterData rows);
                 SuccessAlert dateList ])
       end.
Proof.
  intros rawData masterData dateList.
  unfold processSelectedDates_try, bind.
  destruct (Z.gtb_spec start end_) as [Hgt|Hle]; [reflexivity|].
  unfold ret at 1. rewrite clearExistingSheets_run.
  fold rawData. destruct (length rawData =? 0)%nat; [reflexivity|].
  unfold ret at 1. fold masterData.
  destruct (length masterData =? 0)%nat; [reflexivity|].
  unfold ret at 1. fold dateList.
  destruct (allDated Date_parse rawData) as [rows|] eqn:Hall.
  - rewrite (forEachRun_emits _
               (fun date => DailySheets date (processDailyData rows date masterData))).
    + unfold call. rewrite (generateMasterReport_cells_dated _ _ _ _ _ _ Hall).
      unfold emit, showSuccessNotification, emit.
      rewrite <- !app_assoc. reflexivity.
    + intros date log'. unfold call.
      rewrite (processDailyData_cells_dated _ _ _ _ _ _ Hall). reflexivity.
  - destruct (getDateRange_nonempty zone start end_ Hle) as [rest Hrange].
    subst dateList. rewrite Hrange. cbn [forEachRun]. unfold bind, call.
    rewrite (processDailyData_cells_invalid _ _ _ _ _ Hall). reflexivity.
Qed.

Lemma length_eqb_0 {A : Type} (l : list A) : (length l =? 0)%nat = true <-> l = [].
Proof.
  destruct l; cbn; split; intros H; try reflexivity; discriminate H.
Qed.



(** ** Ingestion *)

Lemma formatDate_HHmm_isHHmm tz t : isHHmm (Utilities.formatDate_HHmm tz t).
Proof.
  unfold Utilities.formatDate_HHmm, Utilities.localMillis.
  assert (Hms : 0 <= (t + tz) mod Utilities.msPerDay < Utilities.msPerDay)
    by (apply Z.mod_pos_bound; reflexivity).
  set (ms := (t + tz) mod Utilities.msPerDay) in *.
  exists (ms / Utilities.msPerHour), (ms mod Utilities.msPerHour / Utilities.msPerMinute).
  assert (Hrest : 0 <= ms mod Utilities.msPerHour < Utilities.msPerHour)
    by (apply Z.mod_pos_bound; reflexivity).
  unfold Utilities.msPerDay, Utilities.msPerHour, Utilities.msPerMinute in *.
  repeat split.
  - apply Z.div_pos; lia.
  - apply Z.div_lt_upper_bound; lia.
  - apply Z.div_pos; lia.
  - apply Z.div_lt_upper_bound; lia.
Qed.

Lemma formatTime_timeText Date_parse time : timeText (formatTime Date_parse time).
Proof.
  unfold formatTime.
  destruct (negb (Js.truthy time)); [right; reflexivity|].
  destruct (newDate Date_parse time); [left; apply formatDate_HHmm_isHHmm|].
  right. reflexivity.
Qed.

Lemma prepareRawData_city_records Date_parse Date_toString city data allData :
  prepareRawData_city Date_parse Date_toString city data allData
  = allData ++ map (recordOf Date_parse Date_toString city)
                   (List.filter (retained Date_toString) data).
Proof.
  unfold prepareRawData_city, forEach. revert allData.
  induction data as [|row data IH]; intros allData; cbn [fold_left List.filter map].
  - symmetry. apply app_nil_r.
  - rewrite IH. unfold prepareRawData_row, isValidShift, retained.
    destruct (Js.truthy (col1 row)); cbn [andb]; [|reflexivity].
    destruct (Js.truthy (col5 row)); cbn [andb negb]; [|reflexivity].
    destruct (excludedStatus _); cbn [negb map]; [reflexivity|].
    rewrite <- app_assoc. reflexivity.
Qed.





(** Left out of C7 as amended: the employee id cell is tested before it
    is trimmed, so that a row whose id cell holds blanks only is kept,
    with an empty employee id. *)
Lemma blank_id_kept_with_empty_id :
  map Row.employeeId
    (prepareRawData_city parseNothing printFixed "Suez" [rowWithBlankId] [])
  = [""].
Proof. vm_compute. reflexivity. Qed.

(** ** A sample run *)

Example civil_epoch : Utilities.civil 0 = (1970, 1, 1).
Proof. reflexivity. Qed.

Example civil_leap_day : Utilities.civil 19782 = (2024, 2, 29).
Proof. reflexivity. Qed.

Example dateKey_jan5 : dateKey jan5 = "2024-01-05".
Proof. reflexivity. Qed.

(** At 22:05 UTC it is already the next day in the zone of the
    report. *)
Example dateKey_late_evening :
  dateKey (jan5 + 22 * Utilities.msPerHour + 5 * Utilities.msPerMinute) = "2024-01-06"
  /\ Utilities.formatDate_HHmm TIME_ZONE
       (jan5 + 22 * Utilities.msPerHour + 5 * Utilities.msPerMinute) = "00:05".
Proof. split; reflexivity. Qed.

Example trim_blanks : Js.trim "  E1 " = "E1" /\ Js.trim "   " = "".
Proof. split; reflexivity. Qed.

Example excluded_any_case :
  excludedStatus "no_show" = true /\ excludedStatus "was Excused" = true
  /\ excludedStatus "Completed" = false.
Proof. repeat split; reflexivity. Qed.

Example sample_ingestion :
  prepareRawData parseNothing printFixed sampleSpreadsheet
  = [ Row.mk "E1" "Completed" (Js.CDate jan5) "08:00" "Invalid Time" "Suez" ].
Proof. vm_compute. reflexivity. Qed.

Example sample_roster : getMasterData printFixed sampleSpreadsheet = sampleRoster.
Proof. vm_compute. reflexivity. Qed.

Example sample_range :
  getDateRange utcZone jan5 (jan5 + 2 * Utilities.msPerDay)
  = [ jan5; jan5 + Utilities.msPerDay; jan5 + 2 * Utilities.msPerDay ].
Proof. vm_compute. reflexivity. Qed.

Example sample_run :
  processSelectedDates utcZone parseNothing printFixed sampleInvalidDate
    sampleSpreadsheet jan5 jan5 []
  = (inr tt,
     [ DeleteSheet "Shifts_04-Jan-2024"; DeleteSheet "Unassigned_04-Jan-2024";
       DeleteSheet "Master_Report";
       DailySheets jan5
         (mkDailyData [ Row.mk "E1" "Completed" jan5 "08:00" "Invalid Time" "Suez" ]
                      [ Emp.mk "E2" "Basem" "MTA" "Suez"; Emp.mk "E3" "Dina" "MTA" "Suez" ]);
       MasterReport [jan5] [sampleReportRow];
       SuccessAlert [jan5] ]).
Proof. vm_compute. reflexivity. Qed.

Example sample_run_reversed :
  processSelectedDates utcZone parseNothing printFixed sampleInvalidDate
    sampleSpreadsheet (jan5 + Utilities.msPerDay) jan5 []
  = (inr tt, [ ErrorAlert "Start date must be before end date" ]).
Proof. vm_compute. reflexivity. Qed.

(** A kept row whose planned start date cell is empty ends the run at
    the first classification. *)
Example sample_run_without_date :
  processSelectedDates utcZone parseNothing printFixed sampleInvalidDate
    (mkSpreadsheet
       {[ "Suez" := [ mkRawRow (Js.CText "E1") (Js.CText "Completed") (Js.CText "")
                               (Js.CText "") (Js.CText "") ] ]}
       (allSheet sampleSpreadsheet) [])
    jan5 jan5 []
  = (inr tt, [ ErrorAlert "Invalid argument: date" ]).
Proof. vm_compute. reflexivity. Qed.

(** * Further properties of the code *)

(** ** Clearing the sheets of an earlier run *)

Lemma generatedName_not_protected sheetName :
  generatedName sheetName = true -> ~ In sheetName (CITIES ++ ["All"]).
Proof.
  intros Hgen Hin.
  assert (Hall : forallb (fun p => negb (generatedName p)) (CITIES ++ ["All"]) = true)
    by reflexivity.
  rewrite forallb_forall in Hall. specialize (Hall sheetName Hin).
  rewrite Hgen in Hall. discriminate Hall.
Qed.

Lemma deletions_filter ss :
  deletions ss = map DeleteSheet (List.filter generatedName (sheetNames ss)).
Proof.
  unfold deletions, clearExistingSheets. rewrite forEachRun_emit. cbn [snd app].
  f_equal. apply filter_ext_in. intros sheetName _.
  change (Js.startsWith "Shifts_" sheetName
          || Js.startsWith "Unassigned_" sheetName
          || String.eqb sheetName "Master_Report") with (generatedName sheetName).
  destruct (generatedName sheetName) eqn:Hgen; [|apply andb_false_r].
  rewrite andb_true_r. apply negb_true_iff, bool_decide_eq_false.
  intros Hin. apply list_elem_of_In in Hin.
  exact (generatedName_not_protected sheetName Hgen Hin).
Qed.

(** X1. [clearExistingSheets] deletes, in sheet order, exactly the
    sheets whose name starts with [Shifts_] or [Unassigned_] or is
    [Master_Report], and does nothing else: its effects are the
    deletions of these sheets, one for each in the order of the sheets
    of the spreadsheet. A city sheet, the [All] sheet or a sheet of any
    other name is never deleted. *)
Theorem clearExistingSheets_spares_inputs ss sheetName :
  deletions ss = map DeleteSheet (List.filter generatedName (sheetNames ss))
  /\ (In (DeleteSheet sheetName) (deletions ss)
      <-> In sheetName (sheetNames ss) /\ generatedName sheetName = true)
  /\ (In (DeleteSheet sheetName) (deletions ss) ->
        ~ In sheetName CITIES /\ sheetName <> "All")
  /\ (forall e, In e (deletions ss) -> exists n, e = DeleteSheet n).
Proof.
  rewrite deletions_filter.
  assert (Hiff : In (DeleteSheet sheetName)
                    (map DeleteSheet (List.filter generatedName (sheetNames ss)))
                 <-> In sheetName (sheetNames ss) /\ generatedName sheetName = true).
  { rewrite in_map_iff. split.
    - intros [n [[= ->] Hn]]. apply filter_In, Hn.
    - intros Hn. exists sheetName. split; [reflexivity | apply filter_In, Hn]. }
  split; [reflexivity|]. split; [exact Hiff|]. split.
  - intros Hdel. apply Hiff in Hdel as [_ Hgen].
    pose proof (generatedName_not_protected sheetName Hgen) as Hprot.
    split.
    + intros Hcity. apply Hprot, in_or_app. left. exact Hcity.
    + intros ->. apply Hprot, in_or_app. right. left. reflexivity.
  - intros e He. apply in_map_iff in He as [n [<- _]]. exists n. reflexivity.
Qed.

Lemma clearExistingSheets_spares_inputs_witness :
  In (DeleteSheet "Master_Report") (deletions sampleSpreadsheet)
  /\ ~ In "Master_Report" CITIES /\ "Master_Report" <> "All".
Proof.
  assert (Hdel : In (DeleteSheet "Master_Report") (deletions sampleSpreadsheet))
    by (vm_compute; right; right; left; reflexivity).
  split; [exact Hdel|].
  exact (proj1 (proj2 (proj2 (clearExistingSheets_spares_inputs sampleSpreadsheet
                                "Master_Report")))
           Hdel).
Defined.

(** X2. Every sheet a run writes (the two sheets of a day, the master
    report) carries a name that the next run clears: if it is still in
    the spreadsheet, [clearExistingSheets] deletes it. None of these
    names is the name of a city sheet or of the [All] sheet. *)
Theorem written_sheets_are_cleared e sheetName ss :
  In sheetName (sheetsWritten e) ->
  ~ In sheetName (CITIES ++ ["All"])
  /\ (In sheetName (sheetNames ss) -> In (DeleteSheet sheetName) (deletions ss)).
Proof.
  intros Hwritten.
  assert (Hgen : generatedName sheetName = true).
  { destruct e as [n|date day|dl rows|dl|msg]; cbn [sheetsWritten] in Hwritten;
      try (destruct Hwritten; fail).
    - destruct Hwritten as [<-|[<-|[]]]; reflexivity.
    - destruct Hwritten as [<-|[]]. reflexivity. }
  split; [apply generatedName_not_protected, Hgen|].
  intros Hin. rewrite deletions_filter. apply in_map, filter_In. split; assumption.
Qed.

Lemma written_sheets_are_cleared_witness :
  In "Shifts_05-Jan-2024" (sheetsWritten (DailySheets jan5 (mkDailyData [] [])))
  /\ ~ In "Shifts_05-Jan-2024" (CITIES ++ ["All"])
  /\ (In "Shifts_05-Jan-2024" ["All"; "Shifts_05-Jan-2024"] ->
      In (DeleteSheet "Shifts_05-Jan-2024")
         (deletions (mkSpreadsheet ∅ None ["All"; "Shifts_05-Jan-2024"]))).
Proof.
  assert (Hin : In "Shifts_05-Jan-2024" (sheetsWritten (DailySheets jan5 (mkDailyData [] []))))
    by (vm_compute; left; reflexivity).
  split; [exact Hin|].
  exact (written_sheets_are_cleared (DailySheets jan5 (mkDailyData [] []))
           "Shifts_05-Jan-2024" (mkSpreadsheet ∅ None ["All"; "Shifts_05-Jan-2024"]) Hin).
Defined.

(** ** Ingestion over all city sheets *)

Lemma prepareRawData_step Date_parse Date_toString ss (cities : list string) :
  forall allData,
    forEach cities
      (fun allData city =>
         match citySheets ss !! city with
         | None => allData
         | Some [] => allData
         | Some data => prepareRawData_city Date_parse Date_toString city data allData
         end)
      allData
    = allData ++ flat_map (cityRecords Date_parse Date_toString ss) cities.
Proof.
  unfold forEach.
  induction cities as [|city cities IH]; intros allData; cbn [fold_left flat_map].
  - symmetry. apply app_nil_r.
  - rewrite IH, app_assoc. f_equal. unfold cityRecords.
    destruct (citySheets ss !! city) as [[|row data]|]; cbn [default];
      [symmetry; apply app_nil_r | | symmetry; apply app_nil_r].
    apply prepareRawData_city_records.
Qed.

Lemma prepareRawData_flat Date_parse Date_toString ss :
  prepareRawData Date_parse Date_toString ss
  = flat_map (cityRecords Date_parse Date_toString ss) CITIES.
Proof. unfold prepareRawData. rewrite prepareRawData_step. reflexivity. Qed.

Lemma In_cityRecords Date_parse Date_toString ss city record :
  In record (cityRecords Date_parse Date_toString ss city)
  <-> exists rows row,
        citySheets ss !! city = Some rows /\ In row rows
        /\ retained Date_toString row = true
        /\ record = recordOf Date_parse Date_toString city row.
Proof.
  unfold cityRecords. rewrite in_map_iff. split.
  - intros [row [<- Hrow]]. apply filter_In in Hrow as [Hrow Hkept].
    destruct (citySheets ss !! city) as [rows|]; cbn [default] in Hrow; [|destruct Hrow].
    exists rows, row. repeat split; assumption.
  - intros [rows [row [Hsheet [Hrow [Hkept ->]]]]].
    exists row. split; [reflexivity|]. rewrite Hsheet. apply filter_In. split; assumption.
Qed.

(** X3. The ingested records are those of the city sheets, city by
    city in the order of [CITIES] and row by row within a sheet. Every
    record carries the name of a city of [CITIES] and comes from a kept
    row of the sheet of that name: a sheet of another name is never
    read, a missing city sheet is skipped. *)
Theorem prepareRawData_by_city Date_parse Date_toString ss :
  prepareRawData Date_parse Date_toString ss
  = flat_map (cityRecords Date_parse Date_toString ss) CITIES
  /\ forall record,
       In record (prepareRawData Date_parse Date_toString ss) ->
       In (Row.city record) CITIES
       /\ exists rows row,
            citySheets ss !! Row.city record = Some rows /\ In row rows
            /\ retained Date_toString row = true
            /\ record = recordOf Date_parse Date_toString (Row.city record) row.
Proof.
  split; [apply prepareRawData_flat|].
  intros record Hin. rewrite prepareRawData_flat in Hin.
  apply in_flat_map in Hin as [city [Hcity Hrec]].
  pose proof Hrec as Hrec'.
  apply In_cityRecords in Hrec' as [rows [row [Hsheet [Hrow [Hkept Heq]]]]].
  assert (Hc : Row.city record = city) by (rewrite Heq; reflexivity).
  rewrite Hc. split; [exact Hcity|]. exists rows, row. repeat split; assumption.
Qed.

Lemma prepareRawData_by_city_witness :
  In (Row.mk "E1" "Completed" (Js.CDate jan5) "08:00" "Invalid Time" "Suez")
     (prepareRawData parseNothing printFixed sampleSpreadsheet)
  /\ In "Suez" CITIES
  /\ exists rows row,
       citySheets sampleSpreadsheet !! "Suez" = Some rows /\ In row rows
       /\ retained printFixed row = true
       /\ Row.mk "E1" "Completed" (Js.CDate jan5) "08:00" "Invalid Time" "Suez"
          = recordOf parseNothing printFixed "Suez" row.
Proof.
  assert (Hin : In (Row.mk "E1" "Completed" (Js.CDate jan5) "08:00" "Invalid Time" "Suez")
                   (prepareRawData parseNothing printFixed sampleSpreadsheet))
    by (vm_compute; left; reflexivity).
  split; [exact Hin|].
  exact (proj2 (prepareRawData_by_city parseNothing printFixed sampleSpreadsheet)
           (Row.mk "E1" "Completed" (Js.CDate jan5) "08:00" "Invalid Time" "Suez") Hin).
Defined.

Lemma prepareRawData_nil_iff Date_parse Date_toString ss :
  prepareRawData Date_parse Date_toString ss = []
  <-> forall city rows row,
        In city CITIES -> citySheets ss !! city = Some rows -> In row rows ->
        retained Date_toString row = false.
Proof.
  rewrite prepareRawData_flat. split.
  - intros Hnil city rows row Hcity Hsheet Hrow.
    destruct (retained Date_toString row) eqn:Hkept; [|reflexivity].
    assert (Hin : In (recordOf Date_parse Date_toString city row)
                     (flat_map (cityRecords Date_parse Date_toString ss) CITIES)).
    { apply in_flat_map. exists city. split; [exact Hcity|].
      apply In_cityRecords. exists rows, row. repeat split; assumption. }
    rewrite Hnil in Hin. destruct Hin.
  - intros Hnone.
    destruct (flat_map (cityRecords Date_parse Date_toString ss) CITIES)
      as [|record records] eqn:Hflat; [reflexivity|].
    assert (Hin : In record (flat_map (cityRecords Date_parse Date_toString ss) CITIES))
      by (rewrite Hflat; left; reflexivity).
    apply in_flat_map in Hin as [city [Hcity Hrec]].
    apply In_cityRecords in Hrec as [rows [row [Hsheet [Hrow [Hkept _]]]]].
    rewrite (Hnone city rows row Hcity Hsheet Hrow) in Hkept. discriminate Hkept.
Qed.

(** X4. No shift record at all is ingested exactly when no row of any
    city sheet is kept; and the run stops with the error
    [No valid shift data found in city sheets] exactly when the start
    date is not after the end date and no row of any city sheet is
    kept. *)
Theorem prepareRawData_empty_iff zone Date_parse Date_toString invalidDateMessage ss :
  (prepareRawData Date_parse Date_toString ss = []
   <-> forall city rows row,
         In city CITIES -> citySheets ss !! city = Some rows -> In row rows ->
         retained Date_toString row = false)
  /\ forall start end_ log,
       (processSelectedDates_try zone Date_parse Date_toString invalidDateMessage
          ss start end_ log).1
       = inl (ScriptError "No valid shift data found in city sheets")
       <-> start <= end_
           /\ forall city rows row,
                In city CITIES -> citySheets ss !! city = Some rows -> In row rows ->
                retained Date_toString row = false.
Proof.
  split; [apply prepareRawData_nil_iff|].
  intros start end_ log.
  rewrite <- (prepareRawData_nil_iff Date_parse Date_toString ss).
  rewrite processSelectedDates_try_run. cbv zeta.
  destruct (Z.gtb_spec start end_) as [Hgt|Hle].
  { cbn [fst]. split; [intros H; discriminate H | intros [H _]; lia]. }
  destruct (length (prepareRawData Date_parse Date_toString ss) =? 0)%nat eqn:Hraw.
  { apply length_eqb_0 in Hraw. cbn [fst].
    split; [intros _; split; assumption | reflexivity]. }
  assert (Hraw' : prepareRawData Date_parse Date_toString ss <> [])
    by (intros H; apply length_eqb_0 in H; rewrite H in Hraw; discriminate Hraw).
  destruct (length (getMasterData Date_toString ss) =? 0)%nat.
  { cbn [fst]. split; [intros H; discriminate H | intros [_ H]; contradiction]. }
  destruct (allDated Date_parse (prepareRawData Date_parse Date_toString ss));
    cbn [fst]; (split; [intros H; discriminate H | intros [_ H]; contradiction]).
Qed.

Lemma prepareRawData_empty_iff_witness :
  (forall city rows row,
     In city CITIES ->
     citySheets (mkSpreadsheet {[ "Suez" := [rowNoShow; rowWithoutStatus] ]} None [])
       !! city = Some rows ->
     In row rows -> retained printFixed row = false)
  /\ prepareRawData parseNothing printFixed
       (mkSpreadsheet {[ "Suez" := [rowNoShow; rowWithoutStatus] ]} None []) = []
  /\ (processSelectedDates_try utcZone parseNothing printFixed sampleInvalidDate
        (mkSpreadsheet {[ "Suez" := [rowNoShow; rowWithoutStatus] ]} None [])
        jan5 jan5 []).1
     = inl (ScriptError "No valid shift data found in city sheets").
Proof.
  assert (Hnone : forall city rows row,
     In city CITIES ->
     citySheets (mkSpreadsheet {[ "Suez" := [rowNoShow; rowWithoutStatus] ]} None [])
       !! city = Some rows ->
     In row rows -> retained printFixed row = false).
  { intros city rows row Hcity Hsheet Hrow. cbn [citySheets] in Hsheet.
    destruct (decide (city = "Suez")) as [->|Hne].
    - rewrite lookup_singleton_eq in Hsheet. injection Hsheet as <-.
      destruct Hrow as [<-|[<-|[]]]; reflexivity.
    - rewrite lookup_singleton_ne in Hsheet by congruence. discriminate Hsheet. }
  assert (Hle : jan5 <= jan5) by discriminate.
  split; [exact Hnone|]. split.
  - exact (proj2 (proj1 (prepareRawData_empty_iff utcZone parseNothing printFixed
                           sampleInvalidDate
                           (mkSpreadsheet {[ "Suez" := [rowNoShow; rowWithoutStatus] ]}
                                          None [])))
             Hnone).
  - exact (proj2 (proj2 (prepareRawData_empty_iff utcZone parseNothing printFixed
                           sampleInvalidDate
                           (mkSpreadsheet {[ "Suez" := [rowNoShow; rowWithoutStatus] ]}
                                          None []))
                    jan5 jan5 [])
             (conj Hle Hnone)).
Defined.

(** ** The roster *)

(** X5. The roster has one entry for every data row of the [All]
    sheet, in sheet order, with the trimmed text of the first cell as
    id: no row is skipped, a blank row gives an entry with an empty id.
    So the roster is empty only when the sheet is missing or has no data
    row. *)
Theorem getMasterData_keeps_every_row Date_toString ss :
  (getMasterData Date_toString ss = []
   <-> allSheet ss = None \/ allSheet ss = Some [])
  /\ (forall rows,
        allSheet ss = Some rows ->
        length (getMasterData Date_toString ss) = length rows
        /\ map Emp.id (getMasterData Date_toString ss)
           = map (fun row => Js.trim (String_ Date_toString (all0 row))) rows)
  /\ (forall emp, In emp (getMasterData Date_toString ss) -> trimmed (Emp.id emp)).
Proof.
  unfold getMasterData. destruct (allSheet ss) as [[|row rows]|].
  - split; [split; [intros _; right; reflexivity | reflexivity]|].
    split; [intros rows' [= <-]; split; reflexivity | intros emp []].
  - split; [|split].
    + split; [discriminate | intros [H|H]; discriminate H].
    + intros rows' [= <-]. split; [apply length_map|].
      rewrite map_map. reflexivity.
    + intros emp Hemp. apply in_map_iff in Hemp as [r [<- _]]. apply trim_trimmed.
  - split; [split; [intros _; left; reflexivity | reflexivity]|].
    split; [intros rows' H; discriminate H | intros emp []].
Qed.

Lemma getMasterData_keeps_every_row_witness :
  allSheet (mkSpreadsheet ∅ (Some [mkAllRow (Js.CText "") (Js.CText "") (Js.CText "")
                                             (Js.CText "")]) [])
  = Some [mkAllRow (Js.CText "") (Js.CText "") (Js.CText "") (Js.CText "")]
  /\ length (getMasterData printFixed
       (mkSpreadsheet ∅ (Some [mkAllRow (Js.CText "") (Js.CText "") (Js.CText "")
                                          (Js.CText "")]) []))
     = 1%nat.
Proof.
  split; [reflexivity|].
  exact (proj1 (proj1 (proj2 (getMasterData_keeps_every_row printFixed
    (mkSpreadsheet ∅ (Some [mkAllRow (Js.CText "") (Js.CText "") (Js.CText "")
                                       (Js.CText "")]) [])))
    [mkAllRow (Js.CText "") (Js.CText "") (Js.CText "") (Js.CText "")] eq_refl)).
Defined.

(** ** Times and statuses *)

Lemma isHHmm_not_sentinel s : isHHmm s -> s <> "Invalid Time".
Proof.
  intros [h [m [_ [_ ->]]]] Heq.
  apply (f_equal (String.get 2)) in Heq.
  assert (Hcolon : String.get 2 (Js.pad2 h +:+ ":" +:+ Js.pad2 m) = Some ":"%char)
    by reflexivity.
  rewrite Hcolon in Heq. discriminate Heq.
Qed.

(** X6. [formatTime] gives the sentinel exactly when the cell is empty
    (or otherwise falsy, like the number 0) or is no valid date; in
    every other case it gives an [HH:mm] text, which is never the
    sentinel. *)
Theorem formatTime_sentinel_iff Date_parse time :
  (formatTime Date_parse time = "Invalid Time"
   <-> Js.truthy time = false \/ newDate Date_parse time = None)
  /\ (formatTime Date_parse time <> "Invalid Time"
      -> isHHmm (formatTime Date_parse time)).
Proof.
  split.
  - unfold formatTime. destruct (Js.truthy time); cbn [negb].
    + destruct (newDate Date_parse time) as [t|].
      * split; [|intros [H|H]; discriminate H].
        intros Heq. exfalso.
        exact (isHHmm_not_sentinel _ (formatDate_HHmm_isHHmm TIME_ZONE t) Heq).
      * split; [intros _; right; reflexivity | reflexivity].
    + split; [intros _; left; reflexivity | reflexivity].
  - intros Hne. destruct (formatTime_timeText Date_parse time) as [H|H];
      [exact H | contradiction].
Qed.

Lemma formatTime_sentinel_iff_witness :
  (Js.truthy (Js.CNum 0) = false \/ newDate parseNothing (Js.CNum 0) = None)
  /\ formatTime parseNothing (Js.CNum 0) = "Invalid Time".
Proof.
  assert (H : Js.truthy (Js.CNum 0) = false \/ newDate parseNothing (Js.CNum 0) = None)
    by (left; reflexivity).
  split; [exact H|].
  exact (proj2 (proj1 (formatTime_sentinel_iff parseNothing (Js.CNum 0))) H).
Defined.

Section TrimAndSearch.
Import Js.

Lemma is_ws_toUpper c : is_ws (toUpper c) = is_ws c.
Proof. destruct c as [[] [] [] [] [] [] [] []]; reflexivity. Qed.

Lemma upper_trimStart s : upper (trimStart s) = trimStart (upper s).
Proof.
  induction s as [|c s IH]; cbn [trimStart upper]; [reflexivity|].
  rewrite is_ws_toUpper. destruct (is_ws c); [exact IH | reflexivity].
Qed.

Lemma upper_trimEnd s : upper (trimEnd s) = trimEnd (upper s).
Proof.
  induction s as [|c s IH]; cbn [trimEnd upper]; [reflexivity|].
  rewrite <- IH, is_ws_toUpper.
  destruct (trimEnd s); cbn [upper]; [destruct (is_ws c)|]; reflexivity.
Qed.

Lemma append_nil s : "" +:+ s = s.
Proof. reflexivity. Qed.

Lemma append_cons c s1 s2 : String c s1 +:+ s2 = String c (s1 +:+ s2).
Proof. reflexivity. Qed.

Lemma upper_app s1 s2 : upper (s1 +:+ s2) = upper s1 +:+ upper s2.
Proof.
  induction s1 as [|c s1 IH]; [reflexivity|].
  rewrite append_cons. cbn [upper]. rewrite append_cons, IH. reflexivity.
Qed.

Lemma prefix_nil s : String.prefix "" s = true.
Proof. destruct s; reflexivity. Qed.

Lemma prefix_cons a pat c s :
  String.prefix (String a pat) (String c s)
  = if ascii_dec a c then String.prefix pat s else false.
Proof. reflexivity. Qed.

Lemma prefix_ws pat c s :
  firstKept pat = true -> is_ws c = true -> String.prefix pat (String c s) = false.
Proof.
  destruct pat as [|a pat]; cbn [firstKept]; [discriminate|].
  intros Ha Hc. rewrite prefix_cons.
  destruct (ascii_dec a c) as [->|_]; [|reflexivity].
  rewrite Hc in Ha. discriminate Ha.
Qed.

Lemma includes_cons pat c s :
  includes pat (String c s) = String.prefix pat (String c s) || includes pat s.
Proof. reflexivity. Qed.

Lemma includes_trimStart pat s :
  firstKept pat = true -> includes pat (trimStart s) = includes pat s.
Proof.
  intros Hpat. induction s as [|c s IH]; cbn [trimStart]; [reflexivity|].
  destruct (is_ws c) eqn:Hc; [|reflexivity].
  rewrite includes_cons, (prefix_ws pat c s Hpat Hc). exact IH.
Qed.

Lemma prefix_trimEnd pat : forall s,
  lastKept pat = true -> String.prefix pat (trimEnd s) = String.prefix pat s.
Proof.
  induction pat as [|a pat IH]; intros s Hpat; [discriminate Hpat|].
  destruct s as [|c s]; [reflexivity|].
  cbn [trimEnd]. rewrite prefix_cons.
  destruct pat as [|b pat].
  - cbn [lastKept] in Hpat. apply negb_true_iff in Hpat.
    destruct (trimEnd s); [destruct (is_ws c) eqn:Hc|];
      rewrite ?prefix_cons, ?prefix_nil;
      destruct (ascii_dec a c) as [->|Hne]; try reflexivity.
    rewrite Hc in Hpat. discriminate Hpat.
  - assert (Hpat' : lastKept (String b pat) = true) by exact Hpat.
    rewrite <- (IH s Hpat').
    destruct (trimEnd s); [destruct (is_ws c)|]; rewrite ?prefix_cons;
      destruct (ascii_dec a c); reflexivity.
Qed.

Lemma includes_trimEnd pat s :
  lastKept pat = true -> includes pat (trimEnd s) = includes pat s.
Proof.
  intros Hpat.
  assert (Hnil : includes pat "" = false) by (destruct pat; [discriminate Hpat | reflexivity]).
  induction s as [|c s IH]; [reflexivity|].
  rewrite includes_cons, <- IH, <- (prefix_trimEnd pat (String c s) Hpat).
  cbn [trimEnd].
  destruct (trimEnd s) as [|a r]; [destruct (is_ws c)|]; rewrite ?includes_cons, ?Hnil;
    try reflexivity.
  rewrite orb_false_r. destruct pat; [discriminate Hpat | reflexivity].
Qed.

Lemma includes_trim pat s :
  firstKept pat = true -> lastKept pat = true ->
  includes pat (trim s) = includes pat s.
Proof.
  intros Hfirst Hlast. unfold trim.
  rewrite includes_trimEnd, includes_trimStart by assumption. reflexivity.
Qed.

Lemma prefix_app pat s : String.prefix pat (pat +:+ s) = true.
Proof.
  induction pat as [|a pat IH]; [apply prefix_nil|].
  rewrite append_cons, prefix_cons.
  destruct (ascii_dec a a); [exact IH | contradiction].
Qed.

Lemma includes_inside pat s1 s2 : includes pat (s1 +:+ pat +:+ s2) = true.
Proof.
  induction s1 as [|c s1 IH].
  - rewrite append_nil.
    assert (Hpre : String.prefix pat (pat +:+ s2) = true) by apply prefix_app.
    destruct (pat +:+ s2); [unfold includes; rewrite Hpre; reflexivity|].
    rewrite includes_cons, Hpre. reflexivity.
  - rewrite append_cons, includes_cons, IH. apply orb_true_r.
Qed.

Lemma excludedStatus_trim s : excludedStatus (trim s) = excludedStatus s.
Proof.
  unfold excludedStatus, trim.
  rewrite upper_trimEnd, upper_trimStart.
  change (trimEnd (trimStart (upper s))) with (trim (upper s)).
  rewrite !includes_trim by reflexivity. reflexivity.
Qed.

End TrimAndSearch.

(** X7. Blanks around a status play no part in its validity: a status
    cell is valid exactly when it is truthy and its text, trimmed or
    not, contains neither excluded word; a row is kept exactly when,
    besides, its employee id cell is truthy. *)
Theorem isValidShift_ignores_blanks Date_toString (row : RawRow) :
  isValidShift Date_toString (col5 row)
  = Js.truthy (col5 row) && negb (excludedStatus (String_ Date_toString (col5 row)))
  /\ retained Date_toString row
     = Js.truthy (col1 row) && Js.truthy (col5 row)
       && negb (excludedStatus (String_ Date_toString (col5 row))).
Proof.
  unfold isValidShift, retained. rewrite excludedStatus_trim.
  split; [|reflexivity].
  destruct (Js.truthy (col5 row)); reflexivity.
Qed.

(** X8. A row whose status text contains NO_SHOW or EXCUSED in any
    letter case, with any text before and after it, is never kept:
    ingesting it adds no record. *)
Theorem excluded_word_anywhere Date_parse Date_toString city before word after row :
  Js.upper word = "NO_SHOW" \/ Js.upper word = "EXCUSED" ->
  col5 row = Js.CText (before +:+ word +:+ after) ->
  isValidShift Date_toString (col5 row) = false
  /\ forall allData,
       prepareRawData_city Date_parse Date_toString city [row] allData = allData.
Proof.
  intros Hword Hstatus.
  assert (Hexcl : excludedStatus (before +:+ word +:+ after) = true).
  { unfold excludedStatus. rewrite !upper_app.
    destruct Hword as [-> | ->]; rewrite includes_inside;
      [reflexivity | apply orb_true_r]. }
  assert (Hinvalid : isValidShift Date_toString (col5 row) = false).
  { unfold isValidShift. rewrite Hstatus. cbn [String_].
    rewrite excludedStatus_trim, Hexcl.
    destruct (negb (Js.truthy (Js.CText (before +:+ word +:+ after)))); reflexivity. }
  split; [exact Hinvalid|].
  intros allData. unfold prepareRawData_city, forEach. cbn [fold_left].
  unfold prepareRawData_row. rewrite Hinvalid, andb_false_r. reflexivity.
Qed.

Lemma excluded_word_anywhere_witness :
  (Js.upper "No_Show" = "NO_SHOW" \/ Js.upper "No_Show" = "EXCUSED")
  /\ isValidShift printFixed (Js.CText "late: No_Show!") = false
  /\ forall allData,
       prepareRawData_city parseNothing printFixed "Suez"
         [ mkRawRow (Js.CText "E5") (Js.CText "late: No_Show!") (Js.CDate jan5)
                    (Js.CText "") (Js.CText "") ]
         allData
       = allData.
Proof.
  assert (Hword : Js.upper "No_Show" = "NO_SHOW" \/ Js.upper "No_Show" = "EXCUSED")
    by (left; reflexivity).
  split; [exact Hword|].
  exact (excluded_word_anywhere parseNothing printFixed "Suez" "late: " "No_Show" "!"
           (mkRawRow (Js.CText "E5") (Js.CText "late: No_Show!") (Js.CDate jan5)
                     (Js.CText "") (Js.CText ""))
           Hword eq_refl).
Defined.

(** ** The date range, beyond its members *)

Lemma daysFrom_length start n : length (daysFrom start n) = n.
Proof. unfold daysFrom. rewrite length_map. apply length_seq. Qed.

Lemma daysFrom_last start n :
  last (daysFrom start (S n)) = Some (start + Z.of_nat n * Utilities.msPerDay).
Proof.
  unfold daysFrom. rewrite seq_S, map_app. cbn [map]. rewrite last_snoc. reflexivity.
Qed.

(** In any zone the dates of the loop lie between the current date and
    the end. *)
Lemma getDateRange_loop_bounds zone current end_ dateList d :
  In d (getDateRange_loop zone current end_ dateList) ->
  In d dateList \/ current <= d <= end_.
Proof.
  funelim (getDateRange_loop zone current end_ dateList); intros Hin.
  - pose proof (nextDate_advances zone current) as Hnext.
    assert (HH : 0 < Utilities.msPerHour) by reflexivity.
    match goal with
    | IH : forall d, In d (getDateRange_loop _ _ _ _) -> _ |- _ =>
        destruct (IH d Hin) as [Hold|Hnew]
    end; [|right; lia].
    apply in_app_or in Hold as [Hold|[<-|[]]]; [left; exact Hold | right; lia].
  - left. exact Hin.
Qed.

(** X9. In any script zone [getDateRange] called with a start after the
    end returns the empty list and raises nothing, and otherwise
    returns a list that begins with the start date and holds only
    dates from the start to the end. In a zone of fixed offset the
    number of its dates is the number of whole days from start to end
    plus one and its last date is less than a day before the end: it is
    the end itself when the end is a whole number of days after the
    start. *)
Theorem getDateRange_size zone start end_ :
  (end_ < start -> getDateRange zone start end_ = [])
  /\ (start <= end_ ->
        (exists rest, getDateRange zone start end_ = start :: rest)
        /\ forall d, In d (getDateRange zone start end_) -> start <= d <= end_)
  /\ (fixedOffset zone -> start <= end_ ->
        Z.of_nat (length (getDateRange zone start end_))
        = (end_ - start) / Utilities.msPerDay + 1
        /\ exists lastDate,
             last (getDateRange zone start end_) = Some lastDate
             /\ end_ - Utilities.msPerDay < lastDate <= end_
             /\ ((Utilities.msPerDay | end_ - start) -> lastDate = end_)).
Proof.
  assert (HD : 0 < Utilities.msPerDay) by reflexivity.
  split; [apply getDateRange_reversed|]. split.
  - intros Hle. split; [apply getDateRange_nonempty, Hle|].
    intros d Hin. apply getDateRange_loop_bounds in Hin as [[]|Hd]. exact Hd.
  - intros Hfixed Hle. rewrite (getDateRange_days _ _ _ Hfixed Hle).
    assert (Hq : 0 <= (end_ - start) / Utilities.msPerDay) by (apply Z.div_pos; lia).
    pose proof (Z.mul_div_le (end_ - start) _ HD) as Hlow.
    pose proof (Z.mul_succ_div_gt (end_ - start) _ HD) as Hhigh.
    split.
    + rewrite daysFrom_length, Nat2Z.inj_succ, Z2Nat.id by exact Hq. lia.
    + eexists. split; [apply daysFrom_last|].
      rewrite Z2Nat.id by exact Hq. split; [lia|].
      intros [z Hz]. rewrite Hz, Z.div_mul by lia. lia.
Qed.

Lemma getDateRange_size_witness :
  (jan5 < jan5 + Utilities.msPerDay
   /\ getDateRange fallBackZone (jan5 + Utilities.msPerDay) jan5 = [])
  /\ (fixedOffset utcZone /\ jan5 <= jan5 + 2 * Utilities.msPerDay
      /\ Z.of_nat (length (getDateRange utcZone jan5 (jan5 + 2 * Utilities.msPerDay)))
         = (jan5 + 2 * Utilities.msPerDay - jan5) / Utilities.msPerDay + 1).
Proof.
  assert (Hlt : jan5 < jan5 + Utilities.msPerDay) by reflexivity.
  assert (Hfixed : fixedOffset utcZone) by (intros t; reflexivity).
  assert (Hle : jan5 <= jan5 + 2 * Utilities.msPerDay) by discriminate.
  split.
  - split; [exact Hlt|].
    exact (proj1 (getDateRange_size fallBackZone (jan5 + Utilities.msPerDay) jan5) Hlt).
  - split; [exact Hfixed|]. split; [exact Hle|].
    exact (proj1 (proj2 (proj2 (getDateRange_size utcZone jan5
                                  (jan5 + 2 * Utilities.msPerDay)))
                    Hfixed Hle)).
Defined.

(** ** The daily classification, beyond the partition *)

Lemma dateKey_localDay d d' :
  Utilities.localDay TIME_ZONE d = Utilities.localDay TIME_ZONE d' ->
  dateKey d = dateKey d'.
Proof.
  intros Hday. unfold dateKey, Utilities.formatDate_yyyyMMdd. rewrite Hday. reflexivity.
Qed.

Lemma processDailyData_key rawData d d' masterData :
  dateKey d = dateKey d' ->
  processDailyData rawData d masterData = processDailyData rawData d' masterData.
Proof. intros Hkey. unfold processDailyData. rewrite Hkey. reflexivity. Qed.

(** X10. The classification of a day goes by the calendar day in the
    zone GMT+2: two target instants of the same day there give the same
    classification, and a shift row that starts at any instant of the
    target's day is in the assigned list, its employee being no
    unassigned one. *)
Theorem classification_by_zone_day rawData d masterData :
  (forall d', Utilities.localDay TIME_ZONE d = Utilities.localDay TIME_ZONE d' ->
              processDailyData rawData d masterData
              = processDailyData rawData d' masterData)
  /\ (forall row,
        In row rawData ->
        Utilities.localDay TIME_ZONE (Row.plannedStartDate row)
        = Utilities.localDay TIME_ZONE d ->
        In row (assigned (processDailyData rawData d masterData))
        /\ forall emp, In emp (unassigned (processDailyData rawData d masterData)) ->
                       Emp.id emp <> Row.employeeId row).
Proof.
  split.
  - intros d' Hday. apply processDailyData_key, dateKey_localDay, Hday.
  - intros row Hrow Hday.
    assert (Hin : In row (assigned (processDailyData rawData d masterData))).
    { rewrite assigned_filter. apply list_elem_of_In, list_elem_of_filter.
      split; [apply dateKey_localDay, Hday | apply list_elem_of_In, Hrow]. }
    split; [exact Hin|].
    intros emp Hemp Hid. apply unassigned_spec in Hemp as [_ Hout]. apply Hout.
    rewrite Hid. unfold assignedIdsOf.
    apply elem_of_list_to_set, list_elem_of_In, in_map, Hin.
Qed.

Lemma classification_by_zone_day_witness :
  Utilities.localDay TIME_ZONE jan5
  = Utilities.localDay TIME_ZONE (jan5 + 21 * Utilities.msPerHour)
  /\ processDailyData [sampleShift] jan5 sampleRoster
     = processDailyData [sampleShift] (jan5 + 21 * Utilities.msPerHour) sampleRoster.
Proof.
  assert (Hday : Utilities.localDay TIME_ZONE jan5
                 = Utilities.localDay TIME_ZONE (jan5 + 21 * Utilities.msPerHour))
    by reflexivity.
  split; [exact Hday|].
  exact (proj1 (classification_by_zone_day [sampleShift] jan5 sampleRoster)
           (jan5 + 21 * Utilities.msPerHour) Hday).
Defined.

Lemma filter_sublist {A : Type} (f : A -> bool) (l : list A) :
  sublist (List.filter f l) l.
Proof.
  induction l as [|x l IH]; cbn [List.filter]; [constructor|].
  destruct (f x); [apply sublist_skip | apply sublist_cons]; exact IH.
Qed.

(** X11. The unassigned entries of a day are roster entries in roster
    order, together with the roster entries that have a shift that day
    they make up the whole roster, duplicates included, and on a day
    without any shift every roster entry is unassigned. *)
Theorem unassigned_complement rawData targetDate masterData :
  let day := processDailyData rawData targetDate masterData in
  sublist (unassigned day) masterData
  /\ (length (unassigned day) + length (assignedOfRoster day masterData)
      = length masterData)%nat
  /\ (assigned day = [] -> unassigned day = masterData).
Proof.
  intros day. subst day. unfold assignedOfRoster, processDailyData.
  cbn [assigned unassigned]. split; [apply filter_sublist|]. split.
  - rewrite Nat.add_comm. apply filter_length.
  - intros Hnone. rewrite Hnone.
    apply forallb_filter_id, forallb_forall. intros emp _.
    apply negb_true_iff, bool_decide_eq_false. unfold assignedIdsOf. cbn [map].
    apply not_elem_of_empty.
Qed.

Lemma unassigned_complement_witness :
  assigned (processDailyData [sampleShift] (jan5 + 3 * Utilities.msPerDay) sampleRoster) = []
  /\ unassigned (processDailyData [sampleShift] (jan5 + 3 * Utilities.msPerDay) sampleRoster)
     = sampleRoster.
Proof.
  assert (Hnone : assigned (processDailyData [sampleShift] (jan5 + 3 * Utilities.msPerDay)
                              sampleRoster) = []) by reflexivity.
  split; [exact Hnone|].
  exact (proj2 (proj2 (unassigned_complement [sampleShift] (jan5 + 3 * Utilities.msPerDay)
                         sampleRoster)) Hnone).
Defined.

(** ** The master report, beyond its totals *)

Lemma toFixed2_zero n : 0 < n -> toFixed2 0 n = "0.00".
Proof.
  intros Hn. unfold toFixed2.
  replace ((20000 * 0 + n) / (2 * n)) with 0
    by (symmetry; apply Z.div_small; lia).
  reflexivity.
Qed.

Lemma countedEntry_cell masterData cy date :
  0 < countMatching cy.1 cy.2 masterData ->
  summaryCell (countedEntry masterData cy) date
  = mkSummaryCell 0 (countMatching cy.1 cy.2 masterData) "0.00%".
Proof.
  intros Hpos. unfold summaryCell, countedEntry. cbn [dates total].
  rewrite lookup_empty, Z.sub_0_r.
  replace (countMatching cy.1 cy.2 masterData >? 0) with true
    by (symmetry; apply Z.gtb_lt; exact Hpos).
  rewrite (toFixed2_zero _ Hpos). reflexivity.
Qed.

(** X12. As the code stands the master report does not depend on the
    shift rows: whatever they are, every cell of every row shows no
    assigned employee, the row's total as unassigned and the text
    0.00%. *)
Theorem report_ignores_shift_rows dateList masterData rawData rawData' :
  generateMasterReport dateList masterData rawData
  = generateMasterReport dateList masterData rawData'
  /\ forall row cell,
       In row (generateMasterReport dateList masterData rawData) ->
       In cell (row_cells row) ->
       cell = mkSummaryCell 0 (row_total row) "0.00%".
Proof.
  split; [rewrite !generateMasterReport_rows; reflexivity|].
  intros row cell Hrow Hcell.
  apply report_row_inv in Hrow as [cy [_ [Hpos ->]]].
  cbn [rowOfEntry row_cells row_total] in *.
  apply in_map_iff in Hcell as [date [<- _]].
  rewrite countedEntry_cell by lia. reflexivity.
Qed.

Lemma report_ignores_shift_rows_witness :
  In sampleReportRow
     (generateMasterReport [jan5] sampleRoster [sampleShift; sampleSecondShift])
  /\ In (mkSummaryCell 0 3 "0.00%") (row_cells sampleReportRow)
  /\ mkSummaryCell 0 3 "0.00%" = mkSummaryCell 0 (row_total sampleReportRow) "0.00%".
Proof.
  assert (Hrow : In sampleReportRow
                   (generateMasterReport [jan5] sampleRoster [sampleShift; sampleSecondShift]))
    by (vm_compute; left; reflexivity).
  assert (Hcell : In (mkSummaryCell 0 3 "0.00%") (row_cells sampleReportRow))
    by (left; reflexivity).
  split; [exact Hrow|]. split; [exact Hcell|].
  exact (proj2 (report_ignores_shift_rows [jan5] sampleRoster
                  [sampleShift; sampleSecondShift] [])
           sampleReportRow (mkSummaryCell 0 3 "0.00%") Hrow Hcell).
Defined.

Lemma enumeration_NoDup : NoDup enumeration.
Proof. apply (bool_decide_unpack (NoDup enumeration)). vm_compute. exact I. Qed.

Lemma report_pairs dateList masterData rawData :
  map (fun row => (row_contract row, row_city row))
      (generateMasterReport dateList masterData rawData)
  = List.filter (fun cy => countMatching cy.1 cy.2 masterData >? 0) enumeration.
Proof.
  rewrite generateMasterReport_rows, map_map.
  erewrite map_ext; [apply map_id|]. intros [c y]. reflexivity.
Qed.

(** X13. No pair of contract and city has two rows in the master
    report, every row is for a pair of the fixed enumeration, and the
    report has at most one row for each of its 66 pairs. *)
Theorem report_rows_distinct dateList masterData rawData :
  NoDup (map (fun row => (row_contract row, row_city row))
             (generateMasterReport dateList masterData rawData))
  /\ (length (generateMasterReport dateList masterData rawData) <= 66)%nat
  /\ forall row, In row (generateMasterReport dateList masterData rawData) ->
                 In (row_contract row) CONTRACTS /\ In (row_city row) CITIES.
Proof.
  pose proof (filter_sublist (fun cy => countMatching cy.1 cy.2 masterData >? 0)
                enumeration) as Hsub.
  split; [|split].
  - rewrite report_pairs.
    eapply sublist_NoDup; [exact enumeration_NoDup | exact Hsub].
  - rewrite <- (length_map (fun row => (row_contract row, row_city row))), report_pairs.
    apply sublist_length in Hsub. exact Hsub.
  - intros row Hrow. apply report_row_inv in Hrow as [[c y] [Hin [_ ->]]].
    cbn [rowOfEntry row_contract row_city countedEntry entry_contract entry_city fst snd].
    unfold enumeration in Hin. apply in_prod_iff in Hin. exact Hin.
Qed.

Lemma report_rows_distinct_witness :
  In sampleReportRow (generateMasterReport [jan5] sampleRoster [sampleShift])
  /\ In (row_contract sampleReportRow) CONTRACTS /\ In (row_city sampleReportRow) CITIES.
Proof.
  assert (Hrow : In sampleReportRow (generateMasterReport [jan5] sampleRoster [sampleShift]))
    by (vm_compute; left; reflexivity).
  split; [exact Hrow|].
  exact (proj2 (proj2 (report_rows_distinct [jan5] sampleRoster [sampleShift]))
           sampleReportRow Hrow).
Defined.

(** X14. A roster entry is counted under a pair of the enumeration
    exactly when its contract and its city are those of the pair: the
    composite key [contract_city] cannot confuse two pairs, even for an
    entry whose contract or city contains the separator. An entry of no
    pair of the enumeration has no key in the map. *)
Theorem composite_key_identifies_pair (emp : Emp.t) :
  (forall cy, In cy enumeration ->
     (keyOf (Emp.contract emp) (Emp.city emp) = keyOf cy.1 cy.2
      <-> Emp.contract emp = cy.1 /\ Emp.city emp = cy.2))
  /\ (inEnumeration emp = false ->
      JsMap.has (keyOf (Emp.contract emp) (Emp.city emp))
                (initContractMap CONTRACTS CITIES) = false).
Proof.
  split.
  - intros cy Hin. destruct (enumeration_noSep cy Hin) as [Hc Hy]. split.
    + apply keyOf_inj; assumption.
    + intros [-> ->]. reflexivity.
  - intros Hout. apply bool_decide_eq_false in Hout.
    destruct (JsMap.has _ _) eqn:Hhas; [|reflexivity].
    exfalso. apply Hout. apply has_true_keys in Hhas.
    rewrite initContractMap_enumeration in Hhas.
    unfold JsMap.keys in Hhas. rewrite map_map in Hhas.
    apply list_elem_of_In, in_map_iff in Hhas as [cy [Hkey Hin]]. cbn [fst] in Hkey.
    destruct (enumeration_noSep cy Hin) as [Hc Hy].
    symmetry in Hkey. destruct (keyOf_inj _ _ _ _ Hc Hy Hkey) as [Hc' Hy'].
    rewrite Hc', Hy'. apply list_elem_of_In. destruct cy. exact Hin.
Qed.

Lemma composite_key_identifies_pair_witness :
  inEnumeration (Emp.mk "E7" "Farid" "MTA_Port" "said") = false
  /\ JsMap.has (keyOf "MTA_Port" "said") (initContractMap CONTRACTS CITIES) = false.
Proof.
  assert (Hout : inEnumeration (Emp.mk "E7" "Farid" "MTA_Port" "said") = false)
    by (vm_compute; reflexivity).
  split; [exact Hout|].
  exact (proj2 (composite_key_identifies_pair (Emp.mk "E7" "Farid" "MTA_Port" "said")) Hout).
Defined.

Lemma countMatching_cons contract city emp masterData :
  countMatching contract city (emp :: masterData)
  = (if String.eqb (Emp.contract emp) contract && String.eqb (Emp.city emp) city
     then 1 else 0)
    + countMatching contract city masterData.
Proof.
  unfold countMatching. cbn [List.filter].
  destruct (String.eqb (Emp.contract emp) contract && String.eqb (Emp.city emp) city);
    cbn [length]; lia.
Qed.

Lemma countMatching_nonneg contract city masterData :
  0 <= countMatching contract city masterData.
Proof. unfold countMatching. lia. Qed.

Lemma sum_pointwise_add {A : Type} (f g : A -> Z) (l : list A) :
  fold_right Z.add 0 (map (fun x => f x + g x) l)
  = fold_right Z.add 0 (map f l) + fold_right Z.add 0 (map g l).
Proof. induction l as [|x l IH]; cbn [map fold_right]; lia. Qed.

(** The totals of the rows written for the pairs of [l] add up to the
    counts of all pairs of [l]: a pair without a row counts nothing. *)
Lemma sumTotals_rows dateList masterData (l : list (string * string)) :
  sumTotals (map (fun cy => rowOfEntry dateList (countedEntry masterData cy))
                 (List.filter (fun cy => countMatching cy.1 cy.2 masterData >? 0) l))
  = fold_right Z.add 0 (map (fun cy => countMatching cy.1 cy.2 masterData) l).
Proof.
  unfold sumTotals.
  induction l as [|cy l IH]; cbn [List.filter map fold_right]; [reflexivity|].
  pose proof (countMatching_nonneg cy.1 cy.2 masterData) as Hnn.
  destruct (Z.gtb_spec (countMatching cy.1 cy.2 masterData) 0) as [Hpos|Hzero];
    cbn [map fold_right rowOfEntry row_total countedEntry total]; lia.
Qed.

Lemma sum_indicator (emp : Emp.t) (l : list (string * string)) :
  NoDup l ->
  fold_right Z.add 0
    (map (fun cy => if String.eqb (Emp.contract emp) cy.1 && String.eqb (Emp.city emp) cy.2
                    then 1 else 0) l)
  = if bool_decide ((Emp.contract emp, Emp.city emp) ∈ l) then 1 else 0.
Proof.
  induction l as [|[c y] l IH]; intros Hnd; [reflexivity|].
  apply NoDup_cons in Hnd as [Hfresh Hnd]. cbn [map fold_right fst snd].
  rewrite (IH Hnd).
  destruct (String.eqb_spec (Emp.contract emp) c) as [Hc|Hc];
    destruct (String.eqb_spec (Emp.city emp) y) as [Hy|Hy]; cbn [andb].
  - subst c y. rewrite (bool_decide_eq_false_2 _ Hfresh).
    rewrite bool_decide_eq_true_2 by apply list_elem_of_here. reflexivity.
  - rewrite Z.add_0_l. apply (f_equal (fun b : bool => if b then 1 else 0)).
    apply bool_decide_ext. rewrite elem_of_cons. split; [tauto|].
    intros [[= _ Hy']|H]; [contradiction | exact H].
  - rewrite Z.add_0_l. apply (f_equal (fun b : bool => if b then 1 else 0)).
    apply bool_decide_ext. rewrite elem_of_cons. split; [tauto|].
    intros [[= Hc' _]|H]; [contradiction | exact H].
  - rewrite Z.add_0_l. apply (f_equal (fun b : bool => if b then 1 else 0)).
    apply bool_decide_ext. rewrite elem_of_cons. split; [tauto|].
    intros [[= Hc' _]|H]; [contradiction | exact H].
Qed.

Lemma sum_counts masterData (l : list (string * string)) :
  NoDup l ->
  fold_right Z.add 0 (map (fun cy => countMatching cy.1 cy.2 masterData) l)
  = Z.of_nat (length (List.filter
      (fun emp => bool_decide ((Emp.contract emp, Emp.city emp) ∈ l)) masterData)).
Proof.
  intros Hnd. induction masterData as [|emp masterData IH].
  - cbn [List.filter length]. induction l as [|cy l IHl]; [reflexivity|].
    apply NoDup_cons in Hnd as [_ Hnd]. cbn [map fold_right]. rewrite (IHl Hnd).
    reflexivity.
  - erewrite map_ext by (intros cy; apply countMatching_cons).
    rewrite sum_pointwise_add, (sum_indicator emp l Hnd), IH.
    cbn [List.filter].
    destruct (bool_decide ((Emp.contract emp, Emp.city emp) ∈ l)); cbn [length]; lia.
Qed.

(** X15. The totals of the rows of the master report add up to the
    number of roster entries whose contract and city form a pair of the
    fixed enumeration: each such entry is counted in one row and once,
    every other entry is left out of the report without any notice. *)
Theorem report_totals_cover_roster dateList masterData rawData :
  sumTotals (generateMasterReport dateList masterData rawData)
  = Z.of_nat (length (List.filter inEnumeration masterData))
  /\ sumTotals (generateMasterReport dateList masterData rawData)
     <= Z.of_nat (length masterData)
  /\ ((forall emp, In emp masterData -> inEnumeration emp = true) ->
      sumTotals (generateMasterReport dateList masterData rawData)
      = Z.of_nat (length masterData)).
Proof.
  assert (Hsum : sumTotals (generateMasterReport dateList masterData rawData)
                 = Z.of_nat (length (List.filter inEnumeration masterData))).
  { rewrite generateMasterReport_rows, sumTotals_rows.
    apply sum_counts, enumeration_NoDup. }
  split; [exact Hsum|]. split.
  - rewrite Hsum. apply inj_le.
    apply sublist_length, filter_sublist.
  - intros Hall. rewrite Hsum. do 2 f_equal.
    apply forallb_filter_id, forallb_forall, Hall.
Qed.

Lemma report_totals_cover_roster_witness :
  (forall emp, In emp sampleRoster -> inEnumeration emp = true)
  /\ sumTotals (generateMasterReport [jan5] sampleRoster [sampleShift])
     = Z.of_nat (length sampleRoster).
Proof.
  assert (Hall : forall emp, In emp sampleRoster -> inEnumeration emp = true).
  { intros emp [<-|[<-|[<-|[]]]]; vm_compute; reflexivity. }
  split; [exact Hall|].
  exact (proj2 (proj2 (report_totals_cover_roster [jan5] sampleRoster [sampleShift])) Hall).
Defined.

Lemma forEach_push3_length {A B : Type} (g : A -> B * B * B) (l : list A) :
  forall init : list B,
    length (forEach l (fun acc x => let '(u, v, w) := g x in acc ++ [u; v; w]) init)
    = (length init + 3 * length l)%nat.
Proof.
  unfold forEach.
  induction l as [|x l IH]; intros init; cbn [fold_left length]; [lia|].
  rewrite IH. destruct (g x) as [[u v] w]. rewrite length_app. cbn [length]. lia.
Qed.

(** X16. The header row of the master report and every data row have
    the same width: three leading columns and three columns for every
    date of the range. *)
Theorem report_is_rectangular dateList masterData rawData row :
  In row (generateMasterReport dateList masterData rawData) ->
  length (masterHeaders dateList) = (3 + 3 * length dateList)%nat
  /\ length (rowValues row) = length (masterHeaders dateList).
Proof.
  intros Hrow.
  assert (Hhead : length (masterHeaders dateList) = (3 + 3 * length dateList)%nat).
  { unfold masterHeaders.
    rewrite (forEach_push3_length
               (fun date => (formatDate_ddMMM TIME_ZONE date +:+ " Assigned",
                             formatDate_ddMMM TIME_ZONE date +:+ " Unassigned",
                             formatDate_ddMMM TIME_ZONE date +:+ " %"))).
    reflexivity. }
  split; [exact Hhead|]. rewrite Hhead.
  apply report_row_inv in Hrow as [cy [_ [_ ->]]].
  unfold rowValues.
  rewrite (forEach_push3_length
             (fun cell => (VNum (cell_assigned cell), VNum (cell_unassigned cell),
                           VText (cell_percentage cell)))).
  cbn [rowOfEntry row_cells length]. rewrite length_map. reflexivity.
Qed.

Lemma report_is_rectangular_witness :
  In sampleReportRow (generateMasterReport [jan5] sampleRoster [sampleShift])
  /\ length (masterHeaders [jan5]) = (3 + 3 * length [jan5])%nat
  /\ length (rowValues sampleReportRow) = length (masterHeaders [jan5]).
Proof.
  assert (Hrow : In sampleReportRow (generateMasterReport [jan5] sampleRoster [sampleShift]))
    by (vm_compute; left; reflexivity).
  split; [exact Hrow|].
  exact (report_is_rectangular [jan5] sampleRoster [sampleShift] sampleReportRow Hrow).
Defined.

(** ** The run as a whole *)



Lemma filter_none {A : Type} (f : A -> bool) (l : list A) :
  Forall (fun x => f x = false) l -> List.filter f l = [].
Proof.
  induction 1 as [|x l Hx _ IH]; cbn [List.filter]; [reflexivity|].
  rewrite Hx. exact IH.
Qed.

(** X18. A run that passes the three checks and whose ingested records
    all have a valid planned start date writes the two sheets of every
    date [getDateRange] returns, once each and in the order of the
    range, each from [processDailyData] of that date over the dated
    records, then the master report over these dates, and ends
    normally. In a script zone of fixed offset the number of days
    written is the number of whole days from start to end plus one. *)
Theorem successful_run_writes_each_day zone Date_parse Date_toString
    invalidDateMessage ss start end_ rows :
  start <= end_ ->
  prepareRawData Date_parse Date_toString ss <> [] ->
  getMasterData Date_toString ss <> [] ->
  allDated Date_parse (prepareRawData Date_parse Date_toString ss) = Some rows ->
  let masterData := getMasterData Date_toString ss in
  let dateList := getDateRange zone start end_ in
  let run := processSelectedDates zone Date_parse Date_toString invalidDateMessage
               ss start end_ [] in
  run.1 = inr tt
  /\ List.filter isReportEvent run.2
     = map (fun date => DailySheets date (processDailyData rows date masterData))
           dateList
       ++ [ MasterReport dateList (generateMasterReport dateList masterData rows) ]
  /\ (fixedOffset zone ->
      Z.of_nat (length dateList) = (end_ - start) / Utilities.msPerDay + 1).
Proof.
  intros Hle Hraw Hmaster Hall masterData dateList run. subst run.
  unfold processSelectedDates, tryCatch.
  rewrite processSelectedDates_try_run. cbv zeta. fold masterData dateList.
  destruct (Z.gtb_spec start end_) as [Hgt|_]; [lia|].
  replace (length (prepareRawData Date_parse Date_toString ss) =? 0)%nat with false
    by (symmetry; apply Nat.eqb_neq; intros H; apply Hraw, length_zero_iff_nil, H).
  replace (length masterData =? 0)%nat with false
    by (symmetry; apply Nat.eqb_neq; intros H; apply Hmaster, length_zero_iff_nil, H).
  rewrite Hall. cbn [fst snd app]. split; [reflexivity|]. split.
  - rewrite !List.filter_app.
    rewrite (filter_none _ _ (deletions_no_report ss)). cbn [app List.filter isReportEvent].
    f_equal. apply forallb_filter_id, forallb_forall.
    intros e He. apply in_map_iff in He as [date [<- _]]. reflexivity.
  - intros Hfixed. subst dateList.
    rewrite (getDateRange_days _ _ _ Hfixed Hle), daysFrom_length.
    assert (Hq : 0 <= (end_ - start) / Utilities.msPerDay)
      by (apply Z.div_pos; [lia | reflexivity]).
    rewrite Nat2Z.inj_succ, Z2Nat.id by exact Hq. lia.
Qed.

Lemma successful_run_writes_each_day_witness :
  jan5 <= jan5
  /\ prepareRawData parseNothing printFixed sampleSpreadsheet <> []
  /\ getMasterData printFixed sampleSpreadsheet <> []
  /\ allDated parseNothing (prepareRawData parseNothing printFixed sampleSpreadsheet)
     = Some [ Row.mk "E1" "Completed" jan5 "08:00" "Invalid Time" "Suez" ]
  /\ (processSelectedDates utcZone parseNothing printFixed sampleInvalidDate
        sampleSpreadsheet jan5 jan5 []).1 = inr tt
  /\ (fixedOffset utcZone ->
      Z.of_nat (length (getDateRange utcZone jan5 jan5))
      = (jan5 - jan5) / Utilities.msPerDay + 1).
Proof.
  assert (Hle : jan5 <= jan5) by discriminate.
  assert (Hraw : prepareRawData parseNothing printFixed sampleSpreadsheet <> [])
    by (vm_compute; discriminate).
  assert (Hmaster : getMasterData printFixed sampleSpreadsheet <> [])
    by (vm_compute; discriminate).
  assert (Hall : allDated parseNothing
                   (prepareRawData parseNothing printFixed sampleSpreadsheet)
                 = Some [ Row.mk "E1" "Completed" jan5 "08:00" "Invalid Time" "Suez" ])
    by (vm_compute; reflexivity).
  pose proof (successful_run_writes_each_day utcZone parseNothing printFixed
                sampleInvalidDate sampleSpreadsheet jan5 jan5 _ Hle Hraw Hmaster Hall)
    as Hrun.
  cbv zeta in Hrun.
  split; [exact Hle|]. split; [exact Hraw|]. split; [exact Hmaster|].
  split; [exact Hall|].
  split; [exact (proj1 Hrun) | exact (proj2 (proj2 Hrun))].
Defined.

(** ** Blanks in the roster *)



